(** * CleaningForm: room classification, submission and notification

    A shallow embedding of [src/components/CleaningForm.tsx].  The React
    component keeps four pieces of state ([completedToday], [error],
    [images], [formData]) and talks to three collaborators: the wall clock
    ([new Date()]), the mail provider ([emailjs.send]) and the persistence
    callback ([onSave]).  Pure helpers are embedded as functions, the event
    handlers as computations in a state-and-exception monad. *)

From stdpp Require Import gmap list strings.
From Stdlib Require Import ZArith NArith Ascii.

Open Scope Z_scope.

(** ** JavaScript strings

    A JavaScript string is a sequence of UTF-16 code units; [slice], [trim]
    and regular expressions without the [u] flag all work on code units. *)

Abbreviation jsstring := (list N).

(** An ASCII literal of the source as a code-unit sequence. *)
Fixpoint lit (s : string) : jsstring :=
  match s with
  | EmptyString => []
  | String a s' => N_of_ascii a :: lit s'
  end.

(** U+00E4, the only non-ASCII letter in the literals of the component. *)
Definition a_umlaut : N := 228%N.

(** [ToBoolean] on a string: only the empty string is falsy. *)
Definition truthy (s : jsstring) : bool :=
  match s with [] => false | _ :: _ => true end.

(** [lhs || rhs] where [lhs] is a string or [undefined]. *)
Definition js_or (lhs : option jsstring) (rhs : jsstring) : jsstring :=
  match lhs with
  | Some v => if truthy v then v else rhs
  | None => rhs
  end.

(** [s.slice(start)]: a negative [start] counts from the end and is clamped
    at the beginning, a positive one is clamped at the end. *)
Definition slice (s : jsstring) (start : Z) : jsstring :=
  let len := Z.of_nat (length s) in
  let from := if start <? 0 then Z.max (len + start) 0 else Z.min start len in
  drop (Z.to_nat from) s.

(** The one-character string of a line feed. *)
Definition LF : jsstring := [10%N].

(** [xs.join(sep)] on an array of strings. *)
Fixpoint join (sep : jsstring) (xs : list jsstring) : jsstring :=
  match xs with
  | [] => []
  | [x] => x
  | x :: rest => x ++ sep ++ join sep rest
  end.

(** WhiteSpace and LineTerminator code points of ECMAScript, the characters
    [String.prototype.trim] strips. *)
Definition white_space : list N :=
  [9; 10; 11; 12; 13; 32; 160; 5760;
   8192; 8193; 8194; 8195; 8196; 8197; 8198; 8199; 8200; 8201; 8202;
   8232; 8233; 8239; 8287; 12288; 65279]%N.

Definition is_white_space (c : N) : bool := bool_decide (c ∈ white_space).

Fixpoint trimStart (s : jsstring) : jsstring :=
  match s with
  | c :: s' => if is_white_space c then trimStart s' else s
  | [] => []
  end.

Definition trimEnd (s : jsstring) : jsstring := reverse (trimStart (reverse s)).

Definition trim (s : jsstring) : jsstring := trimEnd (trimStart s).

(** ** Regular expressions

    The fragment the component uses: a sequence of atoms without
    quantifiers, searched for at every start position, left to right. *)

Inductive atom : Type :=
| CharClass (cs : jsstring)   (* [...] *)
| Char (c : N)                (* a literal character *)
| EndOfInput.                 (* $ without the m flag *)

Fixpoint match_here (re : list atom) (s : jsstring) : option jsstring :=
  match re with
  | [] => Some []
  | CharClass cs :: re' =>
      match s with
      | c :: s' => if bool_decide (c ∈ cs) then (c ::.) <$> match_here re' s' else None
      | [] => None
      end
  | Char c0 :: re' =>
      match s with
      | c :: s' => if bool_decide (c = c0) then (c ::.) <$> match_here re' s' else None
      | [] => None
      end
  | EndOfInput :: re' =>
      match s with
      | [] => match_here re' []
      | _ :: _ => None
      end
  end.

(** [s.match(re)] for a regular expression without the [g] flag: the text of
    the leftmost match, or [None] for [null]. *)
Fixpoint js_match (re : list atom) (s : jsstring) : option jsstring :=
  match match_here re s with
  | Some m => Some m
  | None =>
      match s with
      | [] => None
      | _ :: s' => js_match re s'
      end
  end.

(** ** Room labels *)

(** The object literal [specialRooms].  Its keys are own properties; no
    property of [Object.prototype] has a name of two code units or fewer, so
    a lookup by a [slice(-2)] result never reaches the prototype. *)
Definition specialRooms : gmap jsstring jsstring :=
  list_to_map
    [ (lit "G1", lit "G" ++ [a_umlaut] ++ lit "ste WC");
      (lit "M1", lit "Mitarbeiter WC");
      (lit "B1", lit "Behinderten WC");
      (lit "P1", lit "Pflegebad") ].

Definition getRoomLabel (number : jsstring) : jsstring :=
  let suffix := slice number (-2) in
  js_or (specialRooms !! suffix) number.

(** The regular expression [/[GMBP]1$/]. *)
Definition special_re : list atom :=
  [CharClass (lit "GMBP"); Char (N_of_ascii "1"); EndOfInput].

(** [roomNumber.match(/[GMBP]1$/)]. *)
Definition isSpecialRoom (roomNumber : jsstring) : option jsstring :=
  js_match special_re roomNumber.

(** The two classification results the render uses for one room: the heading
    label and whether the reduced checklist is shown. *)
Definition classify (roomNumber : jsstring) : jsstring * bool :=
  (getRoomLabel roomNumber, bool_decide (is_Some (isSpecialRoom roomNumber))).

(** ** Data

    [Omit<CleaningTask, 'id'>]: the draft held in [formData] and the record
    passed to [onSave] have the same shape. *)

Module Task.
Record t : Type := mk {
  date : jsstring;
  time : jsstring;
  roomNumber : jsstring;
  visualCleaning : bool;
  maintenanceCleaning : bool;
  basicRoomCleaning : bool;
  bedCleaning : bool;
  windowsCurtainsCleaning : bool;
  notes : jsstring;
  staffName : jsstring
}.

(** [{ ...task, time: v }] *)
Definition with_time (v : jsstring) (task : t) : t :=
  mk (date task) v (roomNumber task) (visualCleaning task)
     (maintenanceCleaning task) (basicRoomCleaning task) (bedCleaning task)
     (windowsCurtainsCleaning task) (notes task) (staffName task).

Definition with_date (v : jsstring) (task : t) : t :=
  mk v (time task) (roomNumber task) (visualCleaning task)
     (maintenanceCleaning task) (basicRoomCleaning task) (bedCleaning task)
     (windowsCurtainsCleaning task) (notes task) (staffName task).

Definition with_notes (v : jsstring) (task : t) : t :=
  mk (date task) (time task) (roomNumber task) (visualCleaning task)
     (maintenanceCleaning task) (basicRoomCleaning task) (bedCleaning task)
     (windowsCurtainsCleaning task) v (staffName task).

Definition with_visualCleaning (b : bool) (task : t) : t :=
  mk (date task) (time task) (roomNumber task) b
     (maintenanceCleaning task) (basicRoomCleaning task) (bedCleaning task)
     (windowsCurtainsCleaning task) (notes task) (staffName task).

Definition with_maintenanceCleaning (b : bool) (task : t) : t :=
  mk (date task) (time task) (roomNumber task) (visualCleaning task)
     b (basicRoomCleaning task) (bedCleaning task)
     (windowsCurtainsCleaning task) (notes task) (staffName task).

Definition with_basicRoomCleaning (b : bool) (task : t) : t :=
  mk (date task) (time task) (roomNumber task) (visualCleaning task)
     (maintenanceCleaning task) b (bedCleaning task)
     (windowsCurtainsCleaning task) (notes task) (staffName task).

Definition with_bedCleaning (b : bool) (task : t) : t :=
  mk (date task) (time task) (roomNumber task) (visualCleaning task)
     (maintenanceCleaning task) (basicRoomCleaning task) b
     (windowsCurtainsCleaning task) (notes task) (staffName task).

Definition with_windowsCurtainsCleaning (b : bool) (task : t) : t :=
  mk (date task) (time task) (roomNumber task) (visualCleaning task)
     (maintenanceCleaning task) (basicRoomCleaning task) (bedCleaning task)
     b (notes task) (staffName task).
End Task.

(** What [sendEmailNotification] builds and what [emailjs.send] receives. *)
Module Email.
(** The local object [templateParams]. *)
Record templateParams : Type := mkParams {
  to_email : jsstring;
  room_number : jsstring;
  notes : jsstring;
  images : jsstring;
  date : jsstring;
  service_id : jsstring;
  template_id : jsstring;
  user_id : jsstring
}.

(** The third argument of [emailjs.send]. *)
Record variables : Type := mkVariables {
  v_to_email : jsstring;
  v_room_number : jsstring;
  v_notes : jsstring;
  v_images : jsstring;
  v_date : jsstring
}.

(** One call [emailjs.send(serviceID, templateID, variables, publicKey)]. *)
Record send : Type := mkSend {
  serviceID : jsstring;
  templateID : jsstring;
  vars : variables;
  publicKey : jsstring
}.
End Email.

(** The component's [useState] cells. *)
Module Form.
Record state : Type := mk {
  completedToday : bool;
  error : jsstring;
  images : list jsstring;
  formData : Task.t
}.
End Form.

(** What the collaborators have seen so far. *)
Record World : Type := mkWorld {
  reads : nat;                          (* evaluations of [new Date()] by the handlers *)
  outbox : list Email.send;             (* calls of [emailjs.send], oldest first *)
  console : list (jsstring * jsstring); (* calls of [console.error] *)
  sink : list Task.t                    (* calls of [onSave], oldest first *)
}.

Record Sys : Type := mkSys { form : Form.state; world : World }.

(** The host: the wall clock, the locale formatting of the runtime and the
    behaviour of the mail provider. *)
Record Env : Type := mkEnv {
  (* time value of the k-th [new Date()] *)
  clock : nat -> Z;
  (* [d.toISOString()] *)
  toISOString : Z -> jsstring;
  (* [d.toLocaleString('de-DE')] *)
  toLocaleString : Z -> jsstring;
  (* [d.toLocaleTimeString('de-DE', { hour: '2-digit', minute: '2-digit' })] *)
  toLocaleTimeString : Z -> jsstring;
  (* how the k-th [emailjs.send] settles: [None] resolves, [Some e] rejects
     with [e]; when it settles is decided by the events, see [Settled] *)
  emailjs_send : nat -> Email.send -> option jsstring
}.

(** ** The monad of handlers: state and exceptions *)

Inductive Outcome (A : Type) : Type :=
| Returned (a : A)
| Thrown (e : jsstring).
Arguments Returned {A} a.
Arguments Thrown {A} e.

Definition M (A : Type) : Type := Sys -> Outcome A * Sys.

#[global] Instance M_ret : MRet M := fun A a σ => (Returned a, σ).

#[global] Instance M_bind : MBind M := fun A B k m σ =>
  match m σ with
  | (Returned a, σ') => k a σ'
  | (Thrown e, σ') => (Thrown e, σ')
  end.

(** [try { body } catch (error) { handler }] *)
Definition try_catch {A} (body : M A) (handler : jsstring -> M A) : M A :=
  fun σ =>
    match body σ with
    | (Returned a, σ') => (Returned a, σ')
    | (Thrown e, σ') => handler e σ'
    end.

Definition modify_form (f : Form.state -> Form.state) : M unit :=
  fun σ => (Returned tt, mkSys (f (form σ)) (world σ)).

Definition modify_world (f : World -> World) : M unit :=
  fun σ => (Returned tt, mkSys (form σ) (f (world σ))).

Definition setCompletedToday (b : bool) : M unit :=
  modify_form (fun s =>
    Form.mk b (Form.error s) (Form.images s) (Form.formData s)).

Definition setError (msg : jsstring) : M unit :=
  modify_form (fun s =>
    Form.mk (Form.completedToday s) msg (Form.images s) (Form.formData s)).

(** [setImages(prev => f prev)]; a plain value is the constant updater. *)
Definition setImages (f : list jsstring -> list jsstring) : M unit :=
  modify_form (fun s =>
    Form.mk (Form.completedToday s) (Form.error s) (f (Form.images s)) (Form.formData s)).

(** [setFormData(prev => f prev)] *)
Definition setFormData (f : Task.t -> Task.t) : M unit :=
  modify_form (fun s =>
    Form.mk (Form.completedToday s) (Form.error s) (Form.images s) (f (Form.formData s))).

Definition console_error (msg err : jsstring) : M unit :=
  modify_world (fun w =>
    mkWorld (reads w) (outbox w) (console w ++ [(msg, err)]) (sink w)).

(** [onSave(task)], typed [(task) => void]: the record reaches the sink. *)
Definition onSave (task : Task.t) : M unit :=
  modify_world (fun w =>
    mkWorld (reads w) (outbox w) (console w) (sink w ++ [task])).

(** ** The component *)

Section CleaningForm.
Context (env : Env).
(* the props; [onSave] is the sink of the world *)
Context (roomNumber : jsstring) (initialCompletedToday : bool).

(** [new Date()]: the next reading of the wall clock. *)
Definition new_Date : M Z :=
  fun σ =>
    let w := world σ in
    (Returned (clock env (reads w)),
     mkSys (form σ) (mkWorld (S (reads w)) (outbox w) (console w) (sink w))).

(** [await emailjs.send(...)]: the call is made; a rejected promise throws
    at the [await]. *)
Definition await_emailjs_send
    (serviceID templateID : jsstring) (vars : Email.variables)
    (publicKey : jsstring) : M unit :=
  fun σ =>
    let w := world σ in
    let call := Email.mkSend serviceID templateID vars publicKey in
    let σ' := mkSys (form σ)
                (mkWorld (reads w) (outbox w ++ [call]) (console w) (sink w)) in
    match emailjs_send env (length (outbox w)) call with
    | None => (Returned tt, σ')
    | Some e => (Thrown e, σ')
    end.

Definition sendEmailNotification
    (notes roomNumber : jsstring) (images : list jsstring) : M unit :=
  try_catch
    (now ← new_Date;
     let templateParams :=
       Email.mkParams
         (lit "b.marconi@kv-vorderpfalz.drk.de")
         roomNumber
         notes
         (join LF images)
         (toLocaleString env now)
         (lit "service_drk")
         (lit "template_notes")
         (lit "your_public_key") in
     await_emailjs_send
       (Email.service_id templateParams)
       (Email.template_id templateParams)
       (Email.mkVariables
          (Email.to_email templateParams)
          (Email.room_number templateParams)
          (Email.notes templateParams)
          (Email.images templateParams)
          (Email.date templateParams))
       (Email.user_id templateParams))
    (fun error =>
       console_error (lit "Failed to send email notification:") error).

(** The inline test of [handleSubmit]. *)
Definition hasSelectedCleaning (formData : Task.t) : bool :=
  Task.visualCleaning formData ||
  Task.maintenanceCleaning formData ||
  Task.basicRoomCleaning formData ||
  Task.bedCleaning formData ||
  Task.windowsCurtainsCleaning formData.

Definition rejection_message : jsstring :=
  lit "Bitte w" ++ [a_umlaut] ++ lit "hlen Sie mindestens eine Reinigungsart aus".

(** The updater of the final [setFormData] of [handleSubmit]. *)
Definition reset_draft (prev : Task.t) : Task.t :=
  Task.mk (Task.date prev) (Task.time prev) (Task.roomNumber prev)
          false false false false false [] (Task.staffName prev).

(** [handleSubmit], as a closure over the [formData] and [images] of the
    render that created it.  [e.preventDefault()] touches nothing that is
    modelled. *)
Definition handleSubmit (formData : Task.t) (images : list jsstring) : M unit :=
  if negb (hasSelectedCleaning formData) then
    setError rejection_message
  else
    setError [];;
    (if truthy (trim (Task.notes formData)) || bool_decide (0 < length images)%nat
     then sendEmailNotification (Task.notes formData) roomNumber images
     else mret tt);;
    now ← new_Date;
    onSave (Task.with_time (toLocaleTimeString env now) formData);;
    setCompletedToday true;;
    setImages (fun _ => []);;
    setFormData reset_draft.

(** [reader.onloadend] of [handleImageUpload], once per selected file. *)
Definition onloadend (result : jsstring) : M unit :=
  setImages (fun prev => prev ++ [result]).

(** What the user and the file readers can do to the form. *)
Inductive Event : Type :=
| DateChange (value : jsstring)
| VisualCleaningChange (checked : bool)
| MaintenanceCleaningChange (checked : bool)
| BasicRoomCleaningChange (checked : bool)
| BedCleaningChange (checked : bool)
| WindowsCurtainsCleaningChange (checked : bool)
| NotesChange (value : jsstring)
| FileLoaded (result : jsstring)
| Submit.

(** The handler the render attaches for each event; [Submit] runs
    [handleSubmit] with the state of that render.  Here a submission runs to
    its end before the next event is handled, that is, its send settles
    before anything else happens.  Submissions that are suspended at their
    [await] while other events arrive are modelled further down
    ([handleSubmit_begin], [handleSubmit_resume], [astep]). *)
Definition handle (ev : Event) : M unit :=
  match ev with
  | DateChange value => setFormData (Task.with_date value)
  | VisualCleaningChange checked =>
      setFormData (Task.with_visualCleaning checked);; setError []
  | MaintenanceCleaningChange checked =>
      setFormData (Task.with_maintenanceCleaning checked);; setError []
  | BasicRoomCleaningChange checked =>
      setFormData (Task.with_basicRoomCleaning checked);; setError []
  | BedCleaningChange checked =>
      setFormData (Task.with_bedCleaning checked);; setError []
  | WindowsCurtainsCleaningChange checked =>
      setFormData (Task.with_windowsCurtainsCleaning checked);; setError []
  | NotesChange value => setFormData (Task.with_notes value)
  | FileLoaded result => onloadend result
  | Submit =>
      fun σ => handleSubmit (Form.formData (form σ)) (Form.images (form σ)) σ
  end.

(** The three lower checkboxes are rendered for standard rooms only. *)
Definition rendered (ev : Event) : bool :=
  match ev with
  | BasicRoomCleaningChange _
  | BedCleaningChange _
  | WindowsCurtainsCleaningChange _ => negb (bool_decide (is_Some (isSpecialRoom roomNumber)))
  | _ => true
  end.

Definition step (ev : Event) (σ : Sys) : Sys := snd (handle ev σ).

Definition run (evs : list Event) (σ : Sys) : Sys := foldl (fun σ ev => step ev σ) σ evs.

(** [str.split('T')[0]] *)
Fixpoint split_T_0 (s : jsstring) : jsstring :=
  match s with
  | [] => []
  | c :: s' => if bool_decide (c = N_of_ascii "T") then [] else c :: split_T_0 s'
  end.

(** The state of the first render: the [useState] initial values. *)
Definition mount (w : World) : Sys :=
  let d := clock env (reads w) in
  let t := clock env (S (reads w)) in
  mkSys
    (Form.mk initialCompletedToday [] []
       (Task.mk (split_T_0 (toISOString env d)) (toLocaleTimeString env t)
                roomNumber false false false false false [] []))
    (mkWorld (S (S (reads w))) (outbox w) (console w) (sink w)).

End CleaningForm.

(** ** A concrete host

    A runtime whose time zone is UTC, with the German formats
    [d.m.yyyy, HH:MM:SS] and [HH:MM], and two mail providers: one that
    accepts every message and one that rejects every message. *)

Module Demo.
Definition digit (n : Z) : N := Z.to_N (48 + n mod 10).

Definition two_digits (n : Z) : jsstring := [digit (n / 10); digit n].

Fixpoint decimal_fuel (fuel : nat) (n : Z) : jsstring :=
  match fuel with
  | O => []
  | S fuel' =>
      if n <? 10 then [digit n] else decimal_fuel fuel' (n / 10) ++ [digit n]
  end.

Definition decimal (n : Z) : jsstring := decimal_fuel 20 n.

(** Year, month and day of a day number counted from 1970-01-01. *)
Definition civil (days : Z) : Z * Z * Z :=
  let z := days + 719468 in
  let era := z / 146097 in
  let doe := z - era * 146097 in
  let yoe := (doe - doe / 1460 + doe / 36524 - doe / 146096) / 365 in
  let doy := doe - (365 * yoe + yoe / 4 - yoe / 100) in
  let mp := (5 * doy + 2) / 153 in
  let d := doy - (153 * mp + 2) / 5 + 1 in
  let m := if mp <? 10 then mp + 3 else mp - 9 in
  let y := yoe + era * 400 + (if m <=? 2 then 1 else 0) in
  (y, m, d).

Definition hours (t : Z) : Z := (t / 3600000) mod 24.
Definition minutes (t : Z) : Z := (t / 60000) mod 60.
Definition seconds (t : Z) : Z := (t / 1000) mod 60.

Definition utc_toLocaleTimeString (t : Z) : jsstring :=
  two_digits (hours t) ++ lit ":" ++ two_digits (minutes t).

Definition utc_toLocaleString (t : Z) : jsstring :=
  let '(y, m, d) := civil (t / 86400000) in
  decimal d ++ lit "." ++ decimal m ++ lit "." ++ decimal y ++ lit ", " ++
  two_digits (hours t) ++ lit ":" ++ two_digits (minutes t) ++ lit ":" ++
  two_digits (seconds t).

Definition utc_toISOString (t : Z) : jsstring :=
  let '(y, m, d) := civil (t / 86400000) in
  two_digits (y / 100) ++ two_digits y ++ lit "-" ++ two_digits m ++ lit "-" ++
  two_digits d ++ lit "T" ++
  two_digits (hours t) ++ lit ":" ++ two_digits (minutes t) ++ lit ":" ++
  two_digits (seconds t) ++ lit "." ++ [digit (t mod 1000 / 100)] ++
  two_digits (t mod 1000) ++ lit "Z".

(** The form is opened on 2 November 2026 at 08:00; the clock is read
    again at 09:30:05 and then once a minute. *)
Definition clock (k : nat) : Z :=
  match k with
  | 0%nat => 1793606400000
  | 1%nat => 1793606400001
  | _ => 1793611805000 + 60000 * (Z.of_nat k - 2)
  end.

Definition accepting : Env :=
  mkEnv clock utc_toISOString utc_toLocaleString utc_toLocaleTimeString
        (fun _ _ => None).

Definition rejecting : Env :=
  mkEnv clock utc_toISOString utc_toLocaleString utc_toLocaleTimeString
        (fun _ _ => Some (lit "Network Error")).

Definition empty_world : World := mkWorld 0 [] [] [].

(** A standard room and a special room, freshly mounted. *)
Definition room_101 : Sys := mount accepting (lit "101") false empty_world.
Definition room_G1 : Sys := mount accepting (lit "G1") false empty_world.

Definition photo : jsstring := lit "data:image/png;base64,iVBORw0KGgo=".
End Demo.

(** ** Vocabulary of the properties *)

(** The suffixes of the table, as "one of G, M, B, P, then 1". *)
Definition special_suffix (k : jsstring) : Prop :=
  ∃ c, c ∈ lit "GMBP" ∧ k = [c; N_of_ascii "1"].

(** Nothing but white space. *)
Definition blank (s : jsstring) : Prop :=
  Forall (λ c, is_white_space c = true) s.

(** The guard of the notification in [handleSubmit]. *)
Definition notification_due (formData : Task.t) (images : list jsstring) : bool :=
  truthy (trim (Task.notes formData)) || bool_decide (0 < length images)%nat.

(** The call [sendEmailNotification] makes when the clock reads [now]. *)
Definition notification_call
    (env : Env) (roomNumber notes : jsstring) (images : list jsstring) (now : Z) :
    Email.send :=
  Email.mkSend
    (lit "service_drk")
    (lit "template_notes")
    (Email.mkVariables
       (lit "b.marconi@kv-vorderpfalz.drk.de")
       roomNumber notes (join LF images) (toLocaleString env now))
    (lit "your_public_key").

(** The console line a rejected send leaves behind. *)
Definition failure_log (outcome : option jsstring) : list (jsstring * jsstring) :=
  match outcome with
  | Some e => [(lit "Failed to send email notification:", e)]
  | None => []
  end.

(** The submission added exactly the call [call] to the outbox. *)
Definition dispatches (σ σ' : Sys) (call : Email.send) : Prop :=
  outbox (world σ') = outbox (world σ) ++ [call].

(** The deployment values a call carries: service, template, public key
    and recipient. *)
Definition configuration (call : Email.send) : jsstring * jsstring * jsstring * jsstring :=
  (Email.serviceID call, Email.templateID call, Email.publicKey call,
   Email.v_to_email (Email.vars call)).

Definition literal_configuration : jsstring * jsstring * jsstring * jsstring :=
  (lit "service_drk", lit "template_notes", lit "your_public_key",
   lit "b.marconi@kv-vorderpfalz.drk.de").

(** The three flags whose checkboxes a special room does not show. *)
Definition lower_flags_clear (d : Task.t) : Prop :=
  Task.basicRoomCleaning d = false ∧ Task.bedCleaning d = false ∧
  Task.windowsCurtainsCleaning d = false.

(** Runs the monadic plumbing of a handler, leaving the literals folded. *)
Ltac run_handler :=
  cbv beta iota zeta delta
      [mbind M_bind mret M_ret try_catch modify_form modify_world
       sendEmailNotification await_emailjs_send new_Date console_error onSave
       setError setCompletedToday setImages setFormData onloadend negb
       Email.service_id Email.template_id Email.user_id Email.to_email
       Email.room_number Email.notes Email.images Email.date];
  cbn [form world reads outbox console sink
       Form.completedToday Form.error Form.images Form.formData].

(** ** The rest of the component: uploads and the rendered view *)

Section Upload.
Context {File : Type} (readAsDataURL : File -> jsstring).

(** [handleImageUpload]: nothing for a missing file list, otherwise one
    [FileReader] per selected file.  The result is the list of the readers'
    [onloadend] events in selection order; the host fires them in the order
    in which the reads complete.  [images] is typed [string[]], so a read is
    modelled by the data URL it ends with. *)
Definition handleImageUpload (files : option (list File)) : list Event :=
  match files with
  | None => []
  | Some selected => map (fun file => FileLoaded (readAsDataURL file)) selected
  end.

End Upload.

Section Render.
Context (roomNumber : jsstring) (initialCompletedToday : bool).

(** [completedToday || initialCompletedToday], the test behind the green
    frame, the check mark and the text of the button. *)
Definition highlighted (s : Form.state) : bool :=
  Form.completedToday s || initialCompletedToday.

(** The text of the submit button. *)
Definition submitLabel (s : Form.state) : jsstring :=
  if highlighted s then lit "Erneut reinigen" else lit "Speichern".

(** The checkboxes of the render, with their labels and [checked] values:
    two always, three more unless [isSpecialRoom] is a match. *)
Definition checklist (formData : Task.t) : list (jsstring * bool) :=
  [ (lit "Sichtreinigung", Task.visualCleaning formData);
    (lit "Unterhaltsreinigung", Task.maintenanceCleaning formData) ] ++
  match isSpecialRoom roomNumber with
  | Some _ => []
  | None =>
      [ (lit "Zimmer Grundreinigung", Task.basicRoomCleaning formData);
        (lit "Bett Grundreinigung", Task.bedCleaning formData);
        (lit "Fenster und Gardinen", Task.windowsCurtainsCleaning formData) ]
  end.

(** [{error && <div>...{error}...</div>}] *)
Definition errorBanner (s : Form.state) : option jsstring :=
  if truthy (Form.error s) then Some (Form.error s) else None.

End Render.

(** ** Vocabulary for sequences of events *)

(** The data URLs of the reads that completed during [evs], in order. *)
Definition loaded (evs : list Event) : list jsstring :=
  flat_map (fun ev => match ev with FileLoaded result => [result] | _ => [] end) evs.

Definition is_Submit (ev : Event) : bool :=
  match ev with Submit => true | _ => false end.


(** The five checkbox events. *)
Definition is_checkbox (ev : Event) : bool :=
  match ev with
  | VisualCleaningChange _ | MaintenanceCleaningChange _
  | BasicRoomCleaningChange _ | BedCleaningChange _
  | WindowsCurtainsCleaningChange _ => true
  | _ => false
  end.

(** Events that attach something: a change of the notes or a loaded photo. *)
Definition attaches (ev : Event) : bool :=
  match ev with NotesChange _ | FileLoaded _ => true | _ => false end.

(** What the collaborators saw during a run, given the world before and the
    world after: records saved, mails sent, console lines written. *)
Definition saved_since (w w' : World) : list Task.t := drop (length (sink w)) (sink w').
Definition sent_since (w w' : World) : list Email.send := drop (length (outbox w)) (outbox w').
Definition logged_since (w w' : World) : list (jsstring * jsstring) :=
  drop (length (console w)) (console w').

(** The input element an edit event comes from; [None] for a file read and
    for the submit button. *)
Definition control (ev : Event) : option nat :=
  match ev with
  | DateChange _ => Some 0%nat
  | VisualCleaningChange _ => Some 1%nat
  | MaintenanceCleaningChange _ => Some 2%nat
  | BasicRoomCleaningChange _ => Some 3%nat
  | BedCleaningChange _ => Some 4%nat
  | WindowsCurtainsCleaningChange _ => Some 5%nat
  | NotesChange _ => Some 6%nat
  | FileLoaded _ | Submit => None
  end.


(** ** Submissions in flight

    [handleSubmit] is an async function: from [await emailjs.send(...)] until
    the send settles it is suspended, and the form handles other events
    meanwhile.  The suspended call keeps the [formData] of the render that
    created it. *)

(** A suspended [handleSubmit]: its closure's [formData], and the send it
    waits for with its number. *)
Record Pending : Type := mkPending {
  pending_formData : Task.t;
  pending_index : nat;
  pending_call : Email.send
}.

Record Async : Type := mkAsync { sys : Sys; inflight : list Pending }.

(** What can happen to the form: an event of [Event], or the send of the
    [i]-th suspended submission settling. *)
Inductive AEvent : Type :=
| User (ev : Event)
| Settled (i : nat).

Section Interleaving.
Context (env : Env) (roomNumber : jsstring).

(** The statements of [handleSubmit] after the notification. *)
Definition handleSubmit_finish (formData : Task.t) : M unit :=
  now ← new_Date env;
  onSave (Task.with_time (toLocaleTimeString env now) formData);;
  setCompletedToday true;;
  setImages (fun _ => []);;
  setFormData reset_draft.

(** [handleSubmit] up to its suspension, or to its end when it does not
    send: a rejected draft and a draft with nothing attached are handled in
    one go; otherwise the clock is read, the send is issued and the call is
    suspended. *)
Definition handleSubmit_begin
    (formData : Task.t) (images : list jsstring) (a : Async) : Async :=
  if negb (hasSelectedCleaning formData) then
    mkAsync (snd (setError rejection_message (sys a))) (inflight a)
  else
    let σ := snd (setError [] (sys a)) in
    if truthy (trim (Task.notes formData)) || bool_decide (0 < length images)%nat
    then
      let w := world σ in
      let call :=
        Email.mkSend
          (lit "service_drk")
          (lit "template_notes")
          (Email.mkVariables
             (lit "b.marconi@kv-vorderpfalz.drk.de")
             roomNumber
             (Task.notes formData)
             (join LF images)
             (toLocaleString env (clock env (reads w))))
          (lit "your_public_key") in
      mkAsync
        (mkSys (form σ)
           (mkWorld (S (reads w)) (outbox w ++ [call]) (console w) (sink w)))
        (inflight a ++ [mkPending formData (length (outbox w)) call])
    else
      mkAsync (snd (handleSubmit_finish formData σ)) (inflight a).

(** The rest of a suspended [handleSubmit], run when its send settles: the
    [catch] logs a rejection, then the record is saved and the form reset
    as it is at that moment. *)
Definition handleSubmit_resume (p : Pending) (σ : Sys) : Sys :=
  let σ1 :=
    match emailjs_send env (pending_index p) (pending_call p) with
    | None => σ
    | Some error =>
        snd (console_error (lit "Failed to send email notification:") error σ)
    end in
  snd (handleSubmit_finish (pending_formData p) σ1).

Definition astep (ev : AEvent) (a : Async) : Async :=
  match ev with
  | User Submit =>
      handleSubmit_begin
        (Form.formData (form (sys a))) (Form.images (form (sys a))) a
  | User ev => mkAsync (step env roomNumber ev (sys a)) (inflight a)
  | Settled i =>
      match inflight a !! i with
      | Some p => mkAsync (handleSubmit_resume p (sys a)) (delete i (inflight a))
      | None => a
      end
  end.

Definition arun (evs : list AEvent) (a : Async) : Async :=
  foldl (fun a ev => astep ev a) a evs.

End Interleaving.

Definition is_user_Submit (ev : AEvent) : bool :=
  match ev with User Submit => true | _ => false end.

(** Interleaved events that attach something. *)
Definition a_attaches (ev : AEvent) : bool :=
  match ev with User ev => attaches ev | Settled _ => false end.

(** The state the error banner can be in: hidden, or showing the rejection
    message over a draft with nothing ticked. *)
Definition error_consistent (s : Form.state) : Prop :=
  Form.error s = [] ∨
  (Form.error s = rejection_message ∧ hasSelectedCleaning (Form.formData s) = false).

(** * Properties *)

(** ** Evaluation checks *)

Example getRoomLabel_318G1 :
  getRoomLabel (lit "318G1") = lit "G" ++ [a_umlaut] ++ lit "ste WC".
Proof. vm_compute. reflexivity. Qed.

Example getRoomLabel_318 : getRoomLabel (lit "318") = lit "318".
Proof. vm_compute. reflexivity. Qed.

Example classify_P1 : classify (lit "P1") = (lit "Pflegebad", true).
Proof. vm_compute. reflexivity. Qed.

Example trim_blank : trim (lit "  ") = [].
Proof. vm_compute. reflexivity. Qed.

Example trim_inner : trim (lit " a b ") = lit "a b".
Proof. vm_compute. reflexivity. Qed.

Example demo_toLocaleString :
  Demo.utc_toLocaleString 1793611805000 = lit "2.11.2026, 09:30:05".
Proof. vm_compute. reflexivity. Qed.

Example demo_toISOString :
  Demo.utc_toISOString 1709251199000 = lit "2024-02-29T23:59:59.000Z".
Proof. vm_compute. reflexivity. Qed.

Example demo_mount :
  form Demo.room_101 =
  Form.mk false [] []
    (Task.mk (lit "2026-11-02") (lit "08:00") (lit "101")
             false false false false false [] []).
Proof. vm_compute. reflexivity. Qed.

(** Scenario of the specification: room 101, only [visualCleaning] ticked,
    no notes, no photos: the commit succeeds, no mail is sent and the saved
    record has [visualCleaning] set. *)
Example demo_plain_commit :
  let σ := run Demo.accepting (lit "101") [VisualCleaningChange true; Submit] Demo.room_101 in
  outbox (world σ) = [] /\
  sink (world σ) =
    [Task.mk (lit "2026-11-02") (lit "09:30") (lit "101")
             true false false false false [] []] /\
  Form.completedToday (form σ) = true.
Proof. vm_compute. auto. Qed.


(** ** Room classification *)

Section Classifier.

Lemma slice_last_two (s : jsstring) :
  slice s (-2) = drop (length s - 2) s.
Proof.
  unfold slice. change (-2 <? 0) with true. cbv iota zeta. f_equal. lia.
Qed.

Lemma slice_app_two (p : jsstring) (a b : N) :
  slice (p ++ [a; b]) (-2) = [a; b].
Proof.
  rewrite slice_last_two, length_app. simpl length.
  replace (length p + 2 - 2)%nat with (length p) by lia.
  by rewrite drop_app_length.
Qed.

Lemma slice_two_inv (s : jsstring) (a b : N) :
  slice s (-2) = [a; b] → ∃ p, s = p ++ [a; b].
Proof.
  rewrite slice_last_two. intros H.
  exists (take (length s - 2) s). by rewrite <- H, take_drop.
Qed.

Lemma specialRooms_lookup (k : jsstring) :
  specialRooms !! k =
    if decide (k = lit "G1") then Some (lit "G" ++ [a_umlaut] ++ lit "ste WC")
    else if decide (k = lit "M1") then Some (lit "Mitarbeiter WC")
    else if decide (k = lit "B1") then Some (lit "Behinderten WC")
    else if decide (k = lit "P1") then Some (lit "Pflegebad")
    else None.
Proof.
  unfold specialRooms. cbn [list_to_map foldr uncurry].
  repeat (case_decide; [subst k; by simplify_map_eq |
                        rewrite lookup_insert_ne by done]).
  apply lookup_empty.
Qed.

Lemma specialRooms_is_Some (k : jsstring) :
  is_Some (specialRooms !! k) ↔ special_suffix k.
Proof.
  rewrite specialRooms_lookup. unfold special_suffix. split.
  - repeat case_decide; subst; intros [v Hv]; try discriminate;
      eexists; (split; [|reflexivity]); set_solver.
  - intros (c & Hc & ->).
    cbn in Hc. rewrite !elem_of_cons in Hc.
    destruct Hc as [->|[->|[->|[->|Hc]]]]; [..|by apply elem_of_nil in Hc];
      vm_compute; by eexists.
Qed.

Lemma specialRooms_truthy (k v : jsstring) :
  specialRooms !! k = Some v → truthy v = true.
Proof.
  rewrite specialRooms_lookup.
  repeat case_decide; intros [= <-]; reflexivity.
Qed.

Lemma match_here_special (s : jsstring) :
  is_Some (match_here special_re s) ↔ special_suffix s.
Proof.
  unfold special_suffix, special_re. split.
  - destruct s as [|c [|d [|x s]]]; cbn; intros [m Hm];
      repeat (case_bool_decide; cbn in Hm); try discriminate.
    exists c. by subst d.
  - intros (c & Hc & ->). cbn.
    rewrite bool_decide_eq_true_2 by done.
    rewrite bool_decide_eq_true_2 by done. by eexists.
Qed.

(** A search succeeds exactly when the pattern matches at the start of some
    suffix of the subject. *)
Lemma js_match_is_Some (re : list atom) (s : jsstring) :
  is_Some (js_match re s) ↔ ∃ p t, s = p ++ t ∧ is_Some (match_here re t).
Proof.
  induction s as [|c s IH]; cbn [js_match].
  - destruct (match_here re []) as [m|] eqn:E; split.
    + intros _. exists [], []. rewrite E. split; [done | by eexists].
    + by eexists.
    + by intros [? ?].
    + intros (p & t & Hpt & Ht). symmetry in Hpt.
      apply app_eq_nil in Hpt as [-> ->]. by rewrite E in Ht.
  - destruct (match_here re (c :: s)) as [m|] eqn:E; split.
    + intros _. exists [], (c :: s). rewrite E. split; [done | by eexists].
    + by eexists.
    + rewrite IH. intros (p & t & -> & Ht). by exists (c :: p), t.
    + intros (p & t & Hpt & Ht). rewrite IH.
      destruct p as [|c' p]; cbn in Hpt.
      * subst t. rewrite E in Ht. by destruct Ht.
      * injection Hpt as -> ->. by exists p, t.
Qed.

Lemma isSpecialRoom_is_Some (s : jsstring) :
  is_Some (isSpecialRoom s) ↔ special_suffix (slice s (-2)).
Proof.
  unfold isSpecialRoom. rewrite js_match_is_Some. split.
  - intros (p & t & -> & Ht). apply match_here_special in Ht as (c & Hc & ->).
    rewrite slice_app_two. by exists c.
  - intros (c & Hc & Hs). apply slice_two_inv in Hs as [p ->].
    exists p, [c; N_of_ascii "1"]. split; [done|].
    apply match_here_special. by exists c.
Qed.

Lemma classify_by_lookup (s : jsstring) :
  classify s =
    match specialRooms !! slice s (-2) with
    | Some label => (label, true)
    | None => (s, false)
    end.
Proof.
  unfold classify, getRoomLabel. cbv zeta.
  destruct (specialRooms !! slice s (-2)) as [label|] eqn:E.
  - cbn [js_or]. rewrite (specialRooms_truthy _ _ E). f_equal.
    apply bool_decide_eq_true_2, isSpecialRoom_is_Some, specialRooms_is_Some.
    by rewrite E.
  - cbn [js_or]. f_equal.
    apply bool_decide_eq_false_2. rewrite isSpecialRoom_is_Some.
    rewrite <- specialRooms_is_Some, E. by intros [? ?].
Qed.

End Classifier.

(** C4, as stated, fails on the example: the table holds the German labels,
    so room 318G1 is not labelled "Guest WC". *)
Lemma classify_318G1_not_Guest_WC :
  classify (lit "318G1") ≠ (lit "Guest WC", true).
Proof. vm_compute. discriminate. Qed.

(** C4 (amended): the classifier is a function on all strings.  A string that
    ends in two characters forming a key of the suffix table gets the
    table's label and is special, any other string of two or more
    characters is labelled verbatim and is standard, and so is every string
    of fewer than two characters.  Room 318G1 is special with the table's
    label for G1, room 318 is standard with label 318. *)
Theorem classify_by_suffix :
  (∀ (p : jsstring) (a b : N),
     classify (p ++ [a; b]) =
       match specialRooms !! [a; b] with
       | Some label => (label, true)
       | None => (p ++ [a; b], false)
       end) ∧
  (∀ c : N, classify [c] = ([c], false)) ∧
  classify [] = ([], false) ∧
  dom specialRooms = {[ lit "G1"; lit "M1"; lit "B1"; lit "P1" ]} ∧
  classify (lit "318G1") = (lit "G" ++ [a_umlaut] ++ lit "ste WC", true) ∧
  classify (lit "318") = (lit "318", false).
Proof.
  split; [|split; [|split; [|split; [|split]]]].
  - intros p a b. by rewrite classify_by_lookup, slice_app_two.
  - intros c. rewrite classify_by_lookup.
    replace (slice [c] (-2)) with [c] by reflexivity.
    rewrite specialRooms_lookup. by repeat case_decide.
  - vm_compute. reflexivity.
  - unfold specialRooms. cbn [list_to_map foldr uncurry].
    rewrite !dom_insert_L, dom_empty_L. set_solver.
  - vm_compute. reflexivity.
  - vm_compute. reflexivity.
Qed.

(** C10: for every string, the table lookup of [getRoomLabel] (the last two
    characters as key of [specialRooms]) succeeds exactly when the regular
    expression of [isSpecialRoom] matches. *)
Theorem label_lookup_iff_regex_match (number : jsstring) :
  is_Some (specialRooms !! slice number (-2)) ↔ is_Some (isSpecialRoom number).
Proof.
  by rewrite specialRooms_is_Some, isSpecialRoom_is_Some.
Qed.

(** ** Trimming *)

Section Trim.

Lemma trimStart_nil (s : jsstring) : trimStart s = [] ↔ blank s.
Proof.
  unfold blank. induction s as [|c s IH]; cbn.
  - split; [constructor | done].
  - destruct (is_white_space c) eqn:E.
    + rewrite IH. split; [by constructor | by inversion 1].
    + split; [done | inversion 1; congruence].
Qed.

Lemma trimStart_head (s t : jsstring) (c : N) :
  trimStart s = c :: t → is_white_space c = false.
Proof.
  induction s as [|d s IH]; cbn; [done|].
  destruct (is_white_space d) eqn:E; [done|]. by intros [= -> _].
Qed.

Lemma trim_nil (s : jsstring) : trim s = [] ↔ blank s.
Proof.
  unfold trim, trimEnd. split.
  - intros H. apply (f_equal reverse) in H.
    rewrite reverse_involutive, reverse_nil in H.
    apply trimStart_nil in H. unfold blank in H.
    rewrite Forall_reverse in H.
    destruct (trimStart s) as [|c t] eqn:E; [by apply trimStart_nil|].
    apply trimStart_head in E. inversion H; congruence.
  - intros H. apply trimStart_nil in H. by rewrite H.
Qed.

Lemma truthy_trim (s : jsstring) : truthy (trim s) = true ↔ ¬ blank s.
Proof.
  rewrite <- trim_nil. by destruct (trim s); cbn; split.
Qed.

End Trim.

(** ** What one submission does *)

Section Submission.
Context (env : Env) (roomNumber : jsstring).

(** An invocation of the dispatcher makes exactly one call of
    [emailjs.send] and returns normally, whatever the provider answers. *)
Lemma sendEmailNotification_sends_once
    (notes room : jsstring) (images : list jsstring) (τ : Sys) :
  let out := sendEmailNotification env notes room images τ in
  fst out = Returned tt ∧
  form (snd out) = form τ ∧
  sink (world (snd out)) = sink (world τ) ∧
  outbox (world (snd out)) =
    outbox (world τ) ++
    [notification_call env room notes images (clock env (reads (world τ)))].
Proof.
  unfold sendEmailNotification, notification_call. run_handler.
  by destruct (emailjs_send env _ _).
Qed.

Lemma handleSubmit_rejected (formData : Task.t) (images : list jsstring) (σ : Sys) :
  hasSelectedCleaning formData = false →
  handleSubmit env roomNumber formData images σ =
    (Returned tt,
     mkSys (Form.mk (Form.completedToday (form σ)) rejection_message
                    (Form.images (form σ)) (Form.formData (form σ)))
           (world σ)).
Proof. intros H. unfold handleSubmit. by rewrite H. Qed.

Lemma handleSubmit_silent (formData : Task.t) (images : list jsstring) (σ : Sys) :
  hasSelectedCleaning formData = true →
  notification_due formData images = false →
  handleSubmit env roomNumber formData images σ =
    (Returned tt,
     mkSys (Form.mk true [] [] (reset_draft (Form.formData (form σ))))
           (mkWorld (S (reads (world σ))) (outbox (world σ)) (console (world σ))
              (sink (world σ) ++
               [Task.with_time
                  (toLocaleTimeString env (clock env (reads (world σ))))
                  formData]))).
Proof.
  intros Hsel Hdue. unfold handleSubmit, notification_due in *.
  by rewrite Hsel, Hdue.
Qed.

Lemma handleSubmit_notifying (formData : Task.t) (images : list jsstring) (σ : Sys) :
  hasSelectedCleaning formData = true →
  notification_due formData images = true →
  let w := world σ in
  let call :=
  notification_call env roomNumber (Task.notes formData) images
    (clock env (reads w)) in
  handleSubmit env roomNumber formData images σ =
    (Returned tt,
     mkSys (Form.mk true [] [] (reset_draft (Form.formData (form σ))))
           (mkWorld (S (S (reads w))) (outbox w ++ [call])
              (console w ++ failure_log (emailjs_send env (length (outbox w)) call))
              (sink w ++
               [Task.with_time
                  (toLocaleTimeString env (clock env (S (reads w))))
                  formData]))).
Proof.
  intros Hsel Hdue w call. unfold handleSubmit, notification_due in *.
  rewrite Hsel, Hdue. subst w call. unfold notification_call. run_handler.
  destruct (emailjs_send env _ _) as [e|]; run_handler; cbn [failure_log].
  - reflexivity.
  - by rewrite app_nil_r.
Qed.

End Submission.

(** ** One submission, seen from outside *)

Section Workflow.
Context (env : Env) (roomNumber : jsstring).

Lemma step_Submit (σ : Sys) :
  step env roomNumber Submit σ =
    snd (handleSubmit env roomNumber
           (Form.formData (form σ)) (Form.images (form σ)) σ).
Proof. reflexivity. Qed.

Lemma hasSelectedCleaning_false (d : Task.t) :
  hasSelectedCleaning d = false ↔
  Task.visualCleaning d = false ∧ Task.maintenanceCleaning d = false ∧
  Task.basicRoomCleaning d = false ∧ Task.bedCleaning d = false ∧
  Task.windowsCurtainsCleaning d = false.
Proof.
  unfold hasSelectedCleaning.
  destruct (Task.visualCleaning d), (Task.maintenanceCleaning d),
    (Task.basicRoomCleaning d), (Task.bedCleaning d),
    (Task.windowsCurtainsCleaning d); cbn; intuition discriminate.
Qed.

Lemma hasSelectedCleaning_true (d : Task.t) :
  hasSelectedCleaning d = true ↔
  Task.visualCleaning d = true ∨ Task.maintenanceCleaning d = true ∨
  Task.basicRoomCleaning d = true ∨ Task.bedCleaning d = true ∨
  Task.windowsCurtainsCleaning d = true.
Proof.
  unfold hasSelectedCleaning.
  destruct (Task.visualCleaning d), (Task.maintenanceCleaning d),
    (Task.basicRoomCleaning d), (Task.bedCleaning d),
    (Task.windowsCurtainsCleaning d); cbn; intuition discriminate.
Qed.

Lemma notification_due_true (d : Task.t) (images : list jsstring) :
  notification_due d images = true ↔ trim (Task.notes d) ≠ [] ∨ images ≠ [].
Proof.
  unfold notification_due. rewrite orb_true_iff, bool_decide_eq_true.
  destruct (trim (Task.notes d)), images; cbn; split; intros [?|?];
    try done; try lia; auto with lia.
Qed.

Lemma notification_due_false (d : Task.t) (images : list jsstring) :
  notification_due d images = false ↔ trim (Task.notes d) = [] ∧ images = [].
Proof.
  unfold notification_due. rewrite orb_false_iff, bool_decide_eq_false.
  destruct (trim (Task.notes d)), images; cbn; split; intros [? ?];
    try done; split; try done; lia.
Qed.

(** The committing path of a submission, whichever way the notification
    guard goes. *)
Lemma committed (σ : Sys) :
  let d := Form.formData (form σ) in
  let w := world σ in
  hasSelectedCleaning d = true →
  ∃ k w',
    handle env roomNumber Submit σ =
      (Returned tt, mkSys (Form.mk true [] [] (reset_draft d)) w') ∧
    reads w' = S k ∧
    (k = reads w ∨ k = S (reads w)) ∧
    sink w' = sink w ++ [Task.with_time (toLocaleTimeString env (clock env k)) d].
Proof.
  intros d w Hsel. cbn [handle].
  destruct (notification_due d (Form.images (form σ))) eqn:Hdue.
  - rewrite (handleSubmit_notifying _ _ _ _ _ Hsel Hdue).
    eexists (S (reads w)), _. split; [reflexivity|]. cbn. auto.
  - rewrite (handleSubmit_silent _ _ _ _ _ Hsel Hdue).
    eexists (reads w), _. split; [reflexivity|]. cbn. auto.
Qed.

End Workflow.

(** C1: a draft whose five checklist flags are all false is rejected with
    the fixed message and nothing reaches the sink; a draft with at least
    one flag set passes validation (the error is cleared and a record
    reaches the sink).  Room, notes and photos are arbitrary. *)
Theorem validation_rule (env : Env) (roomNumber : jsstring) (σ : Sys) :
  let d := Form.formData (form σ) in
  let σ' := step env roomNumber Submit σ in
  (Task.visualCleaning d = false ∧ Task.maintenanceCleaning d = false ∧
   Task.basicRoomCleaning d = false ∧ Task.bedCleaning d = false ∧
   Task.windowsCurtainsCleaning d = false →
   Form.error (form σ') = rejection_message ∧
   sink (world σ') = sink (world σ)) ∧
  (Task.visualCleaning d = true ∨ Task.maintenanceCleaning d = true ∨
   Task.basicRoomCleaning d = true ∨ Task.bedCleaning d = true ∨
   Task.windowsCurtainsCleaning d = true →
   Form.error (form σ') = [] ∧
   ∃ record, sink (world σ') = sink (world σ) ++ [record]).
Proof.
  intros d σ'. split.
  - intros H. apply hasSelectedCleaning_false in H.
    subst σ'. rewrite step_Submit, (handleSubmit_rejected _ _ _ _ _ H). auto.
  - intros H. apply hasSelectedCleaning_true in H.
    destruct (committed env roomNumber σ H) as (k & w' & Hrun & _ & _ & Hsink).
    subst σ'. unfold step. rewrite Hrun. cbn. eauto.
Qed.

Lemma validation_rule_witness :
  (let σ := Demo.room_G1 in
   let σ' := step Demo.accepting (lit "G1") Submit σ in
   Form.error (form σ') = rejection_message ∧
   sink (world σ') = sink (world σ)) ∧
  (let σ := run Demo.rejecting (lit "101")
              [BedCleaningChange true; NotesChange (lit "Lampe defekt");
               FileLoaded Demo.photo] Demo.room_101 in
   let σ' := step Demo.rejecting (lit "101") Submit σ in
   Form.error (form σ') = [] ∧
   ∃ record, sink (world σ') = sink (world σ) ++ [record]).
Proof.
  split.
  - apply (proj1 (validation_rule Demo.accepting (lit "G1") Demo.room_G1)).
    repeat split; reflexivity.
  - apply (proj2 (validation_rule Demo.rejecting (lit "101") _)).
    right; right; right; left. reflexivity.
Defined.

(** C2: on a submission that passes validation, a mail is dispatched exactly
    when the notes are non-blank after trimming or there is at least one
    photo; otherwise the outbox stays as it was.  In particular notes made
    of white space only, with no photos, never dispatch. *)
Theorem notification_dispatch_condition
    (env : Env) (roomNumber : jsstring) (σ : Sys) :
  hasSelectedCleaning (Form.formData (form σ)) = true →
  let notes := Task.notes (Form.formData (form σ)) in
  let photos := Form.images (form σ) in
  let σ' := step env roomNumber Submit σ in
  ((∃ call, dispatches σ σ' call) ↔ trim notes ≠ [] ∨ photos ≠ []) ∧
  (outbox (world σ') = outbox (world σ) ∨ ∃ call, dispatches σ σ' call) ∧
  (blank notes → photos = [] → outbox (world σ') = outbox (world σ)).
Proof.
  intros Hsel notes photos σ'. subst σ'. rewrite step_Submit. unfold dispatches.
  destruct (notification_due (Form.formData (form σ)) photos) eqn:Hdue.
  - rewrite (handleSubmit_notifying _ _ _ _ _ Hsel Hdue). cbn.
    apply notification_due_true in Hdue. repeat split; eauto.
    intros Hblank ->. apply trim_nil in Hblank. by destruct Hdue.
  - rewrite (handleSubmit_silent _ _ _ _ _ Hsel Hdue). cbn.
    apply notification_due_false in Hdue as [Hn Hp]. repeat split; auto.
    + intros [call Hcall]. apply (f_equal length) in Hcall.
      rewrite length_app in Hcall. cbn in Hcall. lia.
    + intros [?|?]; done.
Qed.

Lemma notification_dispatch_condition_witness :
  let σ := run Demo.accepting (lit "101")
             [VisualCleaningChange true; NotesChange (lit "  ")] Demo.room_101 in
  let σ' := step Demo.accepting (lit "101") Submit σ in
  ((∃ call, dispatches σ σ' call) ↔
     trim (lit "  ") ≠ [] ∨ Form.images (form σ) ≠ []) ∧
  (outbox (world σ') = outbox (world σ) ∨ ∃ call, dispatches σ σ' call) ∧
  (blank (lit "  ") → Form.images (form σ) = [] →
   outbox (world σ') = outbox (world σ)).
Proof.
  apply (notification_dispatch_condition Demo.accepting (lit "101")).
  reflexivity.
Defined.

Example whitespace_notes_send_nothing :
  outbox (world (run Demo.accepting (lit "101")
                   [VisualCleaningChange true; NotesChange (lit "  "); Submit]
                   Demo.room_101)) = [].
Proof. vm_compute. reflexivity. Qed.

Example notes_send_one_mail :
  outbox (world (run Demo.accepting (lit "101")
                   [VisualCleaningChange true; NotesChange (lit " Lampe defekt");
                    Submit]
                   Demo.room_101)) =
  [Email.mkSend (lit "service_drk") (lit "template_notes")
     (Email.mkVariables (lit "b.marconi@kv-vorderpfalz.drk.de") (lit "101")
        (lit " Lampe defekt") [] (lit "2.11.2026, 09:30:05"))
     (lit "your_public_key")].
Proof. vm_compute. reflexivity. Qed.

(** C3: on a submission that passes validation, whatever the mail provider
    does, the handler returns normally, the record reaches the sink,
    [completedToday] becomes true and no error is shown; the dispatcher
    itself never throws, and a rejected send leaves exactly one console
    line. *)
Theorem notification_failure_absorbed
    (env : Env) (roomNumber : jsstring) (σ : Sys) :
  hasSelectedCleaning (Form.formData (form σ)) = true →
  let result := fst (handle env roomNumber Submit σ) in
  let σ' := step env roomNumber Submit σ in
  result = Returned tt ∧
  (∃ t, sink (world σ') =
        sink (world σ) ++ [Task.with_time t (Form.formData (form σ))]) ∧
  Form.completedToday (form σ') = true ∧
  Form.error (form σ') = [] ∧
  (∀ call e,
     dispatches σ σ' call →
     emailjs_send env (length (outbox (world σ))) call = Some e →
     console (world σ') =
       console (world σ) ++ [(lit "Failed to send email notification:", e)]) ∧
  (∀ notes room images τ,
     fst (sendEmailNotification env notes room images τ) = Returned tt).
Proof.
  intros Hsel result σ'. subst result σ'. unfold step. cbn [handle].
  split; [|split; [|split; [|split; [|split]]]].
  - destruct (committed env roomNumber σ Hsel) as (k & w' & Hrun & _).
    cbn [handle] in Hrun. by rewrite Hrun.
  - destruct (committed env roomNumber σ Hsel) as (k & w' & Hrun & _ & _ & Hsink).
    cbn [handle] in Hrun. rewrite Hrun. cbn. eauto.
  - destruct (committed env roomNumber σ Hsel) as (k & w' & Hrun & _).
    cbn [handle] in Hrun. by rewrite Hrun.
  - destruct (committed env roomNumber σ Hsel) as (k & w' & Hrun & _).
    cbn [handle] in Hrun. by rewrite Hrun.
  - intros call e. unfold dispatches.
    destruct (notification_due (Form.formData (form σ)) (Form.images (form σ)))
      eqn:Hdue.
    + rewrite (handleSubmit_notifying _ _ _ _ _ Hsel Hdue). cbn.
      intros Hcall%app_inv_head. injection Hcall as <-. by intros ->.
    + rewrite (handleSubmit_silent _ _ _ _ _ Hsel Hdue). cbn.
      intros Hcall. apply (f_equal length) in Hcall.
      rewrite length_app in Hcall. cbn in Hcall. lia.
  - intros notes room images τ. unfold sendEmailNotification. run_handler.
    by destruct (emailjs_send env _ _).
Qed.

Lemma notification_failure_absorbed_witness :
  let σ := run Demo.rejecting (lit "101")
             [VisualCleaningChange true; NotesChange (lit "Lampe defekt")]
             Demo.room_101 in
  let σ' := step Demo.rejecting (lit "101") Submit σ in
  fst (handle Demo.rejecting (lit "101") Submit σ) = Returned tt ∧
  sink (world σ') =
    [Task.mk (lit "2026-11-02") (lit "09:31") (lit "101")
             true false false false false (lit "Lampe defekt") []] ∧
  Form.completedToday (form σ') = true ∧
  Form.error (form σ') = [] ∧
  console (world σ') =
    [(lit "Failed to send email notification:", lit "Network Error")].
Proof.
  intros σ σ'.
  destruct (notification_failure_absorbed Demo.rejecting (lit "101") σ)
    as (Hres & _ & Hdone & Herr & Hlog & _); [reflexivity|].
  split; [exact Hres|]. split; [reflexivity|].
  split; [exact Hdone|]. split; [exact Herr|].
  eapply Hlog; reflexivity.
Defined.

(** C5, as stated, fails: the time stamped into the saved record is not
    written back to the draft.  A form opened at 08:00 and submitted at
    09:30 saves a record with time 09:30 and keeps 08:00 in the draft. *)
Lemma draft_time_is_not_the_stamped_time :
  let σ := run Demo.accepting (lit "101") [VisualCleaningChange true] Demo.room_101 in
  let σ' := step Demo.accepting (lit "101") Submit σ in
  hasSelectedCleaning (Form.formData (form σ)) = true ∧
  ∃ record,
    sink (world σ') = [record] ∧
    Task.time record = lit "09:30" ∧
    Task.time (Form.formData (form σ')) = lit "08:00" ∧
    Task.time (Form.formData (form σ')) ≠ Task.time record.
Proof.
  cbv zeta. split; [reflexivity|].
  eexists. split; [vm_compute; reflexivity|].
  split; [reflexivity|]. split; [reflexivity|]. vm_compute. discriminate.
Qed.

(** C5 (amended): on every successful commit the record handed to the sink
    is the draft with its time replaced by the formatted latest reading of
    the wall clock; afterwards the five flags of the draft are false, its
    notes are empty and the photo list is empty, while date, roomNumber,
    staffName and the draft's own time field keep their pre-commit
    values. *)
Theorem commit_stamps_record_and_resets_draft
    (env : Env) (roomNumber : jsstring) (σ : Sys) :
  hasSelectedCleaning (Form.formData (form σ)) = true →
  let d := Form.formData (form σ) in
  let σ' := step env roomNumber Submit σ in
  let d' := Form.formData (form σ') in
  (∃ k, reads (world σ') = S k ∧
        sink (world σ') =
          sink (world σ) ++
          [Task.with_time (toLocaleTimeString env (clock env k)) d]) ∧
  Task.visualCleaning d' = false ∧ Task.maintenanceCleaning d' = false ∧
  Task.basicRoomCleaning d' = false ∧ Task.bedCleaning d' = false ∧
  Task.windowsCurtainsCleaning d' = false ∧
  Task.notes d' = [] ∧
  Form.images (form σ') = [] ∧
  Task.date d' = Task.date d ∧
  Task.roomNumber d' = Task.roomNumber d ∧
  Task.staffName d' = Task.staffName d ∧
  Task.time d' = Task.time d.
Proof.
  intros Hsel d σ' d'.
  destruct (committed env roomNumber σ Hsel) as (k & w' & Hrun & Hk & _ & Hsink).
  subst d' σ'. unfold step. rewrite Hrun. cbn.
  split; [by exists k|]. by repeat split.
Qed.

Lemma commit_stamps_record_and_resets_draft_witness :
  let σ := run Demo.accepting (lit "G1")
             [DateChange (lit "2026-11-01"); MaintenanceCleaningChange true;
              NotesChange (lit "Seife fehlt"); FileLoaded Demo.photo]
             Demo.room_G1 in
  let σ' := step Demo.accepting (lit "G1") Submit σ in
  sink (world σ') =
    [Task.mk (lit "2026-11-01") (lit "09:31") (lit "G1")
             false true false false false (lit "Seife fehlt") []] ∧
  form σ' =
    Form.mk true [] []
      (Task.mk (lit "2026-11-01") (lit "08:00") (lit "G1")
               false false false false false [] []) ∧
  Task.time (Form.formData (form σ')) = Task.time (Form.formData (form σ)).
Proof.
  intros σ σ'.
  pose proof (commit_stamps_record_and_resets_draft
                Demo.accepting (lit "G1") σ eq_refl) as H.
  split; [reflexivity|]. split; [reflexivity|].
  apply H.
Defined.

(** C6: a submission that fails validation sets the (non-empty, hence
    displayed) error message and changes nothing else: the draft, the
    photos and [completedToday] are as before, nothing is saved and no
    mail is sent. *)
Theorem rejected_submission_keeps_draft
    (env : Env) (roomNumber : jsstring) (σ : Sys) :
  hasSelectedCleaning (Form.formData (form σ)) = false →
  let σ' := step env roomNumber Submit σ in
  Form.error (form σ') = rejection_message ∧
  truthy (Form.error (form σ')) = true ∧
  Form.formData (form σ') = Form.formData (form σ) ∧
  Form.images (form σ') = Form.images (form σ) ∧
  Form.completedToday (form σ') = Form.completedToday (form σ) ∧
  sink (world σ') = sink (world σ) ∧
  outbox (world σ') = outbox (world σ) ∧
  world σ' = world σ.
Proof.
  intros Hsel σ'. subst σ'.
  rewrite step_Submit, (handleSubmit_rejected _ _ _ _ _ Hsel). cbn.
  by repeat split.
Qed.

Lemma rejected_submission_keeps_draft_witness :
  let σ := run Demo.accepting (lit "G1")
             [NotesChange (lit "Seife fehlt"); FileLoaded Demo.photo]
             Demo.room_G1 in
  let σ' := step Demo.accepting (lit "G1") Submit σ in
  Form.error (form σ') = rejection_message ∧
  truthy (Form.error (form σ')) = true ∧
  Form.formData (form σ') = Form.formData (form σ) ∧
  Form.images (form σ') = [Demo.photo] ∧
  Form.completedToday (form σ') = false ∧
  sink (world σ') = [] ∧
  outbox (world σ') = [] ∧
  world σ' = world σ.
Proof.
  apply (rejected_submission_keeps_draft Demo.accepting (lit "G1")).
  reflexivity.
Defined.

(** ** Sequences of events *)

Section Runs.
Context (env : Env) (roomNumber : jsstring).

Lemma run_snoc (evs : list Event) (ev : Event) (σ : Sys) :
  run env roomNumber (evs ++ [ev]) σ =
    step env roomNumber ev (run env roomNumber evs σ).
Proof. unfold run. by rewrite foldl_app. Qed.

Lemma run_cons (ev : Event) (evs : list Event) (σ : Sys) :
  run env roomNumber (ev :: evs) σ =
    run env roomNumber evs (step env roomNumber ev σ).
Proof. reflexivity. Qed.

(** Only [Submit] touches the world or [completedToday]. *)
Lemma step_edit (ev : Event) (σ : Sys) :
  ev ≠ Submit →
  world (step env roomNumber ev σ) = world σ ∧
  Form.completedToday (form (step env roomNumber ev σ)) =
    Form.completedToday (form σ).
Proof. by destruct ev. Qed.

Lemma step_completedToday (ev : Event) (σ : Sys) :
  Form.completedToday (form σ) = true →
  Form.completedToday (form (step env roomNumber ev σ)) = true.
Proof.
  intros Hc.
  destruct ev; try exact Hc.
  destruct (hasSelectedCleaning (Form.formData (form σ))) eqn:Hsel.
  - destruct (committed env roomNumber σ Hsel) as (k & w' & Hrun & _).
    unfold step. by rewrite Hrun.
  - by rewrite step_Submit, (handleSubmit_rejected _ _ _ _ _ Hsel).
Qed.

Lemma run_completedToday (evs : list Event) (σ : Sys) :
  Form.completedToday (form σ) = true →
  Form.completedToday (form (run env roomNumber evs σ)) = true.
Proof.
  revert σ. induction evs as [|ev evs IH]; intros σ Hc; [done|].
  rewrite run_cons. by apply IH, step_completedToday.
Qed.

Lemma step_outbox (ev : Event) (σ : Sys) :
  ∃ new,
    outbox (world (step env roomNumber ev σ)) = outbox (world σ) ++ new ∧
    Forall (λ call, configuration call = literal_configuration) new.
Proof.
  destruct ev; try (exists []; by rewrite app_nil_r).
  rewrite step_Submit.
  destruct (hasSelectedCleaning (Form.formData (form σ))) eqn:Hsel.
  - destruct (notification_due (Form.formData (form σ)) (Form.images (form σ)))
      eqn:Hdue.
    + rewrite (handleSubmit_notifying _ _ _ _ _ Hsel Hdue). cbn.
      eexists [_]. split; [reflexivity|]. by repeat constructor.
    + rewrite (handleSubmit_silent _ _ _ _ _ Hsel Hdue). cbn.
      exists []. by rewrite app_nil_r.
  - rewrite (handleSubmit_rejected _ _ _ _ _ Hsel). cbn.
    exists []. by rewrite app_nil_r.
Qed.

Lemma run_outbox (evs : list Event) (σ : Sys) :
  ∃ new,
    outbox (world (run env roomNumber evs σ)) = outbox (world σ) ++ new ∧
    Forall (λ call, configuration call = literal_configuration) new.
Proof.
  revert σ. induction evs as [|ev evs IH]; intros σ.
  - exists []. by rewrite app_nil_r.
  - rewrite run_cons.
    destruct (step_outbox ev σ) as (new1 & H1 & F1).
    destruct (IH (step env roomNumber ev σ)) as (new2 & H2 & F2).
    exists (new1 ++ new2). rewrite H2, H1, <- app_assoc.
    split; [done | by apply Forall_app].
Qed.

(** In a special room the three lower checkboxes are not rendered, so their
    flags stay false and validation looks at the two upper ones only. *)
Lemma special_room_lower_flags (evs : list Event) (σ : Sys) :
  is_Some (isSpecialRoom roomNumber) →
  forallb (rendered roomNumber) evs = true →
  lower_flags_clear (Form.formData (form σ)) →
  lower_flags_clear (Form.formData (form (run env roomNumber evs σ))).
Proof.
  intros Hspecial. revert σ.
  induction evs as [|ev evs IH]; intros σ Hevs Hclear; [done|].
  cbn [forallb] in Hevs. apply andb_true_iff in Hevs as [Hev Hevs].
  rewrite run_cons. apply IH; [done|]. clear IH Hevs.
  destruct ev; try exact Hclear;
    try (cbn in Hev; by rewrite bool_decide_eq_true_2 in Hev).
  destruct (hasSelectedCleaning (Form.formData (form σ))) eqn:Hsel.
  - destruct (committed env roomNumber σ Hsel) as (k & w' & Hrun & _).
    unfold step. rewrite Hrun. by repeat split.
  - by rewrite step_Submit, (handleSubmit_rejected _ _ _ _ _ Hsel).
Qed.

End Runs.

(** C7: [completedToday] starts as the prop the caller passes, is true after
    every successful submission, and once true stays true through every
    sequence of events.  A second commit is permitted: after a first commit
    and any further edits that tick a box again, submitting saves another
    record and [completedToday] is still true. *)
Theorem completedToday_only_rises (env : Env) (roomNumber : jsstring) :
  (∀ initialCompletedToday w,
     Form.completedToday (form (mount env roomNumber initialCompletedToday w)) =
       initialCompletedToday) ∧
  (∀ σ, hasSelectedCleaning (Form.formData (form σ)) = true →
        Form.completedToday (form (step env roomNumber Submit σ)) = true) ∧
  (∀ evs σ, Form.completedToday (form σ) = true →
            Form.completedToday (form (run env roomNumber evs σ)) = true) ∧
  (∀ σ evs,
     let σ1 := step env roomNumber Submit σ in
     let σ2 := run env roomNumber evs σ1 in
     let σ3 := step env roomNumber Submit σ2 in
     hasSelectedCleaning (Form.formData (form σ)) = true →
     hasSelectedCleaning (Form.formData (form σ2)) = true →
     Form.completedToday (form σ1) = true ∧
     Form.completedToday (form σ2) = true ∧
     Form.completedToday (form σ3) = true ∧
     ∃ first second,
       sink (world σ1) = sink (world σ) ++ [first] ∧
       sink (world σ3) = sink (world σ2) ++ [second]).
Proof.
  assert (Hsubmit : ∀ σ, hasSelectedCleaning (Form.formData (form σ)) = true →
    Form.completedToday (form (step env roomNumber Submit σ)) = true ∧
    ∃ record, sink (world (step env roomNumber Submit σ)) =
              sink (world σ) ++ [record]).
  { intros σ Hsel.
    destruct (committed env roomNumber σ Hsel) as (k & w' & Hrun & _ & _ & Hsink).
    unfold step. rewrite Hrun. cbn. eauto. }
  split; [|split; [|split]].
  - reflexivity.
  - intros σ Hsel. by apply Hsubmit.
  - intros evs σ. apply run_completedToday.
  - intros σ evs σ1 σ2 σ3 Hsel Hsel2.
    destruct (Hsubmit σ Hsel) as (H1 & r1 & Hs1).
    destruct (Hsubmit σ2 Hsel2) as (H3 & r2 & Hs3).
    split; [exact H1|]. split; [by apply run_completedToday|].
    split; [exact H3|]. by exists r1, r2.
Qed.

Lemma completedToday_only_rises_witness :
  let env := Demo.accepting in
  let σ := run env (lit "101") [VisualCleaningChange true] Demo.room_101 in
  let σ1 := step env (lit "101") Submit σ in
  let σ2 := run env (lit "101") [BedCleaningChange true] σ1 in
  let σ3 := step env (lit "101") Submit σ2 in
  Form.completedToday (form σ) = false ∧
  Form.completedToday (form σ1) = true ∧
  Form.completedToday (form σ2) = true ∧
  Form.completedToday (form σ3) = true ∧
  ∃ first second,
    sink (world σ1) = sink (world σ) ++ [first] ∧
    sink (world σ3) = sink (world σ2) ++ [second].
Proof.
  intros env σ σ1 σ2 σ3. split; [reflexivity|].
  apply (proj2 (proj2 (proj2 (completedToday_only_rises env (lit "101"))))
           σ [BedCleaningChange true]); reflexivity.
Defined.

Example two_commits_two_records :
  sink (world (run Demo.accepting (lit "101")
                 [VisualCleaningChange true; Submit;
                  BedCleaningChange true; Submit] Demo.room_101)) =
  [Task.mk (lit "2026-11-02") (lit "09:30") (lit "101")
           true false false false false [] [];
   Task.mk (lit "2026-11-02") (lit "09:31") (lit "101")
           false false false true false [] []].
Proof. vm_compute. reflexivity. Qed.

(** C8: when a submission dispatches, the call carries the fixed recipient,
    the [roomNumber] prop, the notes of the draft as typed, the photos
    joined into one block with a single line feed (code unit 10) between
    consecutive photos, and the formatted reading of the clock taken by the
    dispatcher; the time of the saved record comes from the following
    reading. *)
Theorem notification_payload (env : Env) (roomNumber : jsstring) (σ : Sys) :
  let d := Form.formData (form σ) in
  let photos := Form.images (form σ) in
  let w := world σ in
  let σ' := step env roomNumber Submit σ in
  hasSelectedCleaning d = true →
  trim (Task.notes d) ≠ [] ∨ photos ≠ [] →
  (∃ call,
     dispatches σ σ' call ∧
     Email.vars call =
       Email.mkVariables
         (lit "b.marconi@kv-vorderpfalz.drk.de")
         roomNumber
         (Task.notes d)
         (join [10%N] photos)
         (toLocaleString env (clock env (reads w)))) ∧
  (join [10%N] [] = [] ∧
   (∀ photo, join [10%N] [photo] = photo) ∧
   (∀ photo next rest,
      join [10%N] (photo :: next :: rest) =
        photo ++ 10%N :: join [10%N] (next :: rest))) ∧
  sink (world σ') =
    sink w ++ [Task.with_time (toLocaleTimeString env (clock env (S (reads w)))) d].
Proof.
  intros d photos w σ' Hsel Hdue. apply notification_due_true in Hdue.
  subst σ'. unfold dispatches. rewrite step_Submit.
  rewrite (handleSubmit_notifying _ _ _ _ _ Hsel Hdue). cbn.
  split; [eauto|]. split; [|done]. by repeat split.
Qed.

Lemma notification_payload_witness :
  let σ := run Demo.accepting (lit "204")
             [VisualCleaningChange true; NotesChange (lit " Lampe defekt ");
              FileLoaded Demo.photo; FileLoaded (lit "data:image/jpeg;base64,/9j/4A==")]
             (mount Demo.accepting (lit "204") false Demo.empty_world) in
  let σ' := step Demo.accepting (lit "204") Submit σ in
  (∃ call,
     dispatches σ σ' call ∧
     Email.vars call =
       Email.mkVariables
         (lit "b.marconi@kv-vorderpfalz.drk.de")
         (lit "204")
         (lit " Lampe defekt ")
         (Demo.photo ++ 10%N :: lit "data:image/jpeg;base64,/9j/4A==")
         (lit "2.11.2026, 09:30:05")) ∧
  sink (world σ') =
    [Task.mk (lit "2026-11-02") (lit "09:31") (lit "204")
             true false false false false (lit " Lampe defekt ") []].
Proof.
  intros σ σ'.
  destruct (notification_payload Demo.accepting (lit "204") σ)
    as (Hcall & _ & Hsink).
  - reflexivity.
  - left. vm_compute. discriminate.
  - split; [exact Hcall | exact Hsink].
Defined.

(** C9, as stated, fails: no prop, state or host behaviour changes the
    service, template, public key or recipient of a dispatched mail. *)
Lemma configuration_is_not_supplied_externally :
  ¬ ∃ (env1 env2 : Env) (room1 room2 : jsstring) (σ1 σ2 : Sys)
      (call1 call2 : Email.send),
      dispatches σ1 (step env1 room1 Submit σ1) call1 ∧
      dispatches σ2 (step env2 room2 Submit σ2) call2 ∧
      configuration call1 ≠ configuration call2.
Proof.
  intros (env1 & env2 & room1 & room2 & σ1 & σ2 & call1 & call2 & H1 & H2 & Hne).
  unfold dispatches in *.
  destruct (step_outbox env1 room1 Submit σ1) as (new1 & E1 & F1).
  destruct (step_outbox env2 room2 Submit σ2) as (new2 & E2 & F2).
  rewrite H1 in E1. rewrite H2 in E2.
  apply app_inv_head in E1, E2. subst new1 new2.
  apply (proj1 (Forall_singleton _ _)) in F1, F2. cbv beta in F1, F2.
  apply Hne. by rewrite F1, F2.
Qed.

(** C9 (amended): the service identifier, template identifier, public key
    and recipient address are literals of the code: every mail dispatched
    during any sequence of events, on any host and for any props, carries
    the same four values. *)
Theorem configuration_is_literal
    (env : Env) (roomNumber : jsstring) (evs : list Event) (σ : Sys) :
  ∃ new,
    outbox (world (run env roomNumber evs σ)) = outbox (world σ) ++ new ∧
    Forall (λ call,
              Email.serviceID call = lit "service_drk" ∧
              Email.templateID call = lit "template_notes" ∧
              Email.publicKey call = lit "your_public_key" ∧
              Email.v_to_email (Email.vars call) =
                lit "b.marconi@kv-vorderpfalz.drk.de") new.
Proof.
  destruct (run_outbox env roomNumber evs σ) as (new & Hnew & Hcfg).
  exists new. split; [exact Hnew|].
  eapply Forall_impl; [exact Hcfg|].
  intros call [= -> -> -> ->]. done.
Qed.

(** ** Further properties of the component *)

(** Splits a submission into its three outcomes and rewrites with the
    matching equation of [handleSubmit]. *)
Ltac submit_cases env roomNumber σ :=
  rewrite ?step_Submit;
  let Hsel := fresh "Hsel" in
  let Hdue := fresh "Hdue" in
  destruct (hasSelectedCleaning (Form.formData (form σ))) eqn:Hsel;
  [ destruct (notification_due (Form.formData (form σ)) (Form.images (form σ)))
      eqn:Hdue;
    [ rewrite (handleSubmit_notifying env roomNumber _ _ σ Hsel Hdue)
    | rewrite (handleSubmit_silent env roomNumber _ _ σ Hsel Hdue) ]
  | rewrite (handleSubmit_rejected env roomNumber _ _ σ Hsel) ];
  cbn [snd fst form world reads outbox console sink
       Form.completedToday Form.error Form.images Form.formData].

Section Steps.
Context (env : Env) (roomNumber : jsstring).

(** A property kept by every step that is allowed is kept by every run of
    allowed steps. *)
Lemma run_invariant (allowed : Event → Prop) (I : Sys → Prop) :
  (∀ ev σ, allowed ev → I σ → I (step env roomNumber ev σ)) →
  ∀ evs σ, Forall allowed evs → I σ → I (run env roomNumber evs σ).
Proof.
  intros Hstep evs. induction evs as [|ev evs IH]; intros σ Hall HI; [done|].
  inversion Hall; subst. rewrite run_cons. apply IH; [done|]. by apply Hstep.
Qed.

(** One step saves nothing, or it is a valid submission and saves the draft
    with a fresh time. *)
Lemma step_sink (ev : Event) (σ : Sys) :
  sink (world (step env roomNumber ev σ)) = sink (world σ) ∨
  (ev = Submit ∧
   hasSelectedCleaning (Form.formData (form σ)) = true ∧
   ∃ t, sink (world (step env roomNumber ev σ)) =
        sink (world σ) ++ [Task.with_time t (Form.formData (form σ))]).
Proof.
  destruct ev; try by left.
  submit_cases env roomNumber σ; [right | right | by left]; repeat split; eauto.
Qed.

(** One step sends nothing, or it is a valid submission with something
    attached and sends one mail. *)
Lemma step_sent (ev : Event) (σ : Sys) :
  outbox (world (step env roomNumber ev σ)) = outbox (world σ) ∨
  (ev = Submit ∧
   hasSelectedCleaning (Form.formData (form σ)) = true ∧
   notification_due (Form.formData (form σ)) (Form.images (form σ)) = true ∧
   outbox (world (step env roomNumber ev σ)) =
     outbox (world σ) ++
     [notification_call env roomNumber (Task.notes (Form.formData (form σ)))
        (Form.images (form σ)) (clock env (reads (world σ)))]).
Proof.
  destruct ev; try by left.
  submit_cases env roomNumber σ; [by right | by left | by left].
Qed.

(** What one step adds to the three logs of the world. *)
Lemma step_growth (ev : Event) (σ : Sys) :
  ∃ recs mails logs,
    sink (world (step env roomNumber ev σ)) = sink (world σ) ++ recs ∧
    outbox (world (step env roomNumber ev σ)) = outbox (world σ) ++ mails ∧
    console (world (step env roomNumber ev σ)) = console (world σ) ++ logs ∧
    (length logs ≤ length mails)%nat ∧
    (length mails ≤ length recs)%nat ∧
    (length recs ≤ if is_Submit ev then 1 else 0)%nat ∧
    Forall (λ r, hasSelectedCleaning r = true) recs.
Proof.
  assert (Hnone : ∀ τ : Sys, ∀ n : nat,
    ∃ recs mails logs,
      sink (world τ) = sink (world τ) ++ recs ∧
      outbox (world τ) = outbox (world τ) ++ mails ∧
      console (world τ) = console (world τ) ++ logs ∧
      (length logs ≤ length mails)%nat ∧
      (length mails ≤ length recs)%nat ∧
      (length recs ≤ n)%nat ∧
      Forall (λ r, hasSelectedCleaning r = true) recs).
  { intros τ n. exists [], [], []. rewrite !app_nil_r.
    repeat split; try done; cbn; lia. }
  destruct ev; try apply (Hnone σ).
  submit_cases env roomNumber σ.
  - eexists [_], [_], (failure_log _).
    split; [reflexivity|]. split; [reflexivity|]. split; [reflexivity|].
    split; [destruct (emailjs_send env _ _); cbn; lia|].
    repeat split; try done. by repeat constructor.
  - eexists [_], [], []. rewrite !app_nil_r. repeat split; try done; cbn; try lia.
    by repeat constructor.
  - apply (Hnone σ).
Qed.

Lemma run_growth (evs : list Event) (σ : Sys) :
  ∃ recs mails logs,
    sink (world (run env roomNumber evs σ)) = sink (world σ) ++ recs ∧
    outbox (world (run env roomNumber evs σ)) = outbox (world σ) ++ mails ∧
    console (world (run env roomNumber evs σ)) = console (world σ) ++ logs ∧
    (length logs ≤ length mails)%nat ∧
    (length mails ≤ length recs)%nat ∧
    (length recs ≤ length (filter is_Submit evs))%nat ∧
    Forall (λ r, hasSelectedCleaning r = true) recs.
Proof.
  revert σ. induction evs as [|ev evs IH]; intros σ.
  - exists [], [], []. rewrite !app_nil_r. repeat split; try done; cbn; lia.
  - rewrite run_cons.
    destruct (step_growth ev σ) as (r1 & m1 & l1 & Hr1 & Hm1 & Hl1 & ? & ? & ? & ?).
    destruct (IH (step env roomNumber ev σ))
      as (r2 & m2 & l2 & Hr2 & Hm2 & Hl2 & ? & ? & ? & ?).
    exists (r1 ++ r2), (m1 ++ m2), (l1 ++ l2).
    rewrite Hr2, Hm2, Hl2, Hr1, Hm1, Hl1, <- !app_assoc, !length_app.
    repeat split; try done; try lia.
    + rewrite filter_cons. destruct (is_Submit ev); cbn; case_decide; cbn; try lia; done.
    + by apply Forall_app.
Qed.

Lemma since_app {A} (old new : list A) : drop (length old) (old ++ new) = new.
Proof. by rewrite drop_app_length. Qed.

Lemma run_since (evs : list Event) (σ : Sys) :
  let w := world σ in
  let w' := world (run env roomNumber evs σ) in
  sink w' = sink w ++ saved_since w w' ∧
  outbox w' = outbox w ++ sent_since w w' ∧
  console w' = console w ++ logged_since w w' ∧
  (length (logged_since w w') ≤ length (sent_since w w'))%nat ∧
  (length (sent_since w w') ≤ length (saved_since w w'))%nat ∧
  (length (saved_since w w') ≤ length (filter is_Submit evs))%nat ∧
  Forall (λ r, hasSelectedCleaning r = true) (saved_since w w').
Proof.
  intros w w'. subst w w'.
  destruct (run_growth evs σ) as (r & m & l & Hr & Hm & Hl & ? & ? & ? & ?).
  unfold saved_since, sent_since, logged_since.
  rewrite Hr, Hm, Hl, !since_app. by repeat split.
Qed.

End Steps.

(** X2: every record handed to the sink, in any run from any state, has at
    least one of the five cleaning types set. *)
Theorem every_saved_record_has_a_cleaning_type
    (env : Env) (roomNumber : jsstring) (evs : list Event) (σ : Sys) :
  Forall (λ record, hasSelectedCleaning record = true)
    (saved_since (world σ) (world (run env roomNumber evs σ))).
Proof. apply (run_since env roomNumber evs σ). Qed.

(** X3: the error state is always either empty or the rejection message
    over a draft with nothing ticked; so the banner never shows while a box
    is ticked, and it shows nothing but the rejection message. *)
Theorem error_banner_invariant
    (env : Env) (roomNumber : jsstring) (evs : list Event) (σ : Sys) :
  error_consistent (form σ) →
  let s' := form (run env roomNumber evs σ) in
  error_consistent s' ∧
  (errorBanner s' = None ∨ errorBanner s' = Some rejection_message) ∧
  (hasSelectedCleaning (Form.formData s') = true → errorBanner s' = None).
Proof.
  intros Hσ s'.
  assert (Hs' : error_consistent s').
  { subst s'.
    apply (run_invariant env roomNumber (λ _, True) (λ τ, error_consistent (form τ)));
      [|by apply Forall_true|done].
    clear. intros ev σ _ Hσ. unfold error_consistent in *.
    destruct ev; try (by left); try exact Hσ.
    submit_cases env roomNumber σ; [by left | by left | by right]. }
  split; [exact Hs'|]. unfold errorBanner.
  destruct Hs' as [->|[-> Hnone]]; cbn; split; auto.
  rewrite Hnone. discriminate.
Qed.

Lemma error_banner_invariant_witness :
  let s' := form (run Demo.accepting (lit "101")
                    [Submit; NotesChange (lit "Lampe defekt")] Demo.room_101) in
  error_consistent s' ∧
  (errorBanner s' = None ∨ errorBanner s' = Some rejection_message) ∧
  (hasSelectedCleaning (Form.formData s') = true → errorBanner s' = None).
Proof.
  apply (error_banner_invariant Demo.accepting (lit "101")).
  left. reflexivity.
Defined.

Section Photos.
Context (env : Env) (roomNumber : jsstring).

Lemma loaded_app (evs1 evs2 : list Event) :
  loaded (evs1 ++ evs2) = loaded evs1 ++ loaded evs2.
Proof. unfold loaded. apply flat_map_app. Qed.

(** A step that saves nothing appends what it loaded and keeps the other
    photos. *)
Lemma step_images (ev : Event) (σ : Sys) :
  sink (world (step env roomNumber ev σ)) = sink (world σ) →
  Form.images (form (step env roomNumber ev σ)) =
    Form.images (form σ) ++ loaded [ev].
Proof.
  destruct ev; try (intros _; cbn; by rewrite ?app_nil_r).
  submit_cases env roomNumber σ; cbn; rewrite ?app_nil_r; try done;
    intros H; apply (f_equal length) in H; rewrite length_app in H;
    cbn in H; lia.
Qed.

Lemma run_images (evs : list Event) (σ : Sys) :
  sink (world (run env roomNumber evs σ)) = sink (world σ) →
  Form.images (form (run env roomNumber evs σ)) =
    Form.images (form σ) ++ loaded evs.
Proof.
  revert σ. induction evs as [|ev evs IH]; intros σ Hsink.
  - cbn. by rewrite app_nil_r.
  - rewrite run_cons in *.
    destruct (step_growth env roomNumber ev σ) as (r1 & _ & _ & Hr1 & _).
    destruct (run_growth env roomNumber evs (step env roomNumber ev σ))
      as (r2 & _ & _ & Hr2 & _).
    assert (r1 = [] ∧ r2 = []) as [-> ->].
    { rewrite Hr2, Hr1, <- app_assoc in Hsink.
      rewrite <- (app_nil_r (sink (world σ))) in Hsink at 2.
      apply app_inv_head in Hsink. by apply app_eq_nil in Hsink. }
    rewrite app_nil_r in Hr1, Hr2.
    rewrite (IH _ Hr2), (step_images _ _ Hr1), <- app_assoc.
    by rewrite <- loaded_app.
Qed.

Lemma run_loads (evs : list Event) (σ : Sys) :
  Forall (λ ev, ∃ result, ev = FileLoaded result) evs →
  run env roomNumber evs σ =
    mkSys (Form.mk (Form.completedToday (form σ)) (Form.error (form σ))
                   (Form.images (form σ) ++ loaded evs) (Form.formData (form σ)))
          (world σ).
Proof.
  revert σ. induction evs as [|ev evs IH]; intros σ Hall.
  - cbn. rewrite app_nil_r. by destruct σ as [[] ?].
  - inversion Hall as [|? ? [result ->] Hrest]; subst.
    rewrite run_cons, (IH _ Hrest). cbn. by rewrite <- app_assoc.
Qed.

End Photos.

(** X6: the photos of one upload are appended to the photos already there in
    the order in which the reads complete, whatever that order is; the
    result holds the same data URLs as the selection, and nothing else of
    the form or the world changes.  A missing file list adds nothing. *)
Theorem upload_appends_in_completion_order
    {File : Type} (readAsDataURL : File → jsstring)
    (env : Env) (roomNumber : jsstring)
    (files : option (list File)) (completion : list Event) (σ : Sys) :
  completion ≡ₚ handleImageUpload readAsDataURL files →
  let σ' := run env roomNumber completion σ in
  Form.images (form σ') = Form.images (form σ) ++ loaded completion ∧
  loaded completion ≡ₚ default [] (map readAsDataURL <$> files) ∧
  length (Form.images (form σ')) =
    (length (Form.images (form σ)) + length (default [] files))%nat ∧
  Form.formData (form σ') = Form.formData (form σ) ∧
  Form.error (form σ') = Form.error (form σ) ∧
  Form.completedToday (form σ') = Form.completedToday (form σ) ∧
  world σ' = world σ.
Proof.
  intros Hperm σ'.
  assert (Hall : Forall (λ ev, ∃ result, ev = FileLoaded result) completion).
  { rewrite Hperm. destruct files as [selected|]; cbn; [|constructor].
    apply Forall_forall. intros ev Hev. apply list_elem_of_fmap in Hev.
    destruct Hev as (file & -> & _). eauto. }
  assert (Hloaded : loaded completion ≡ₚ default [] (map readAsDataURL <$> files)).
  { unfold loaded. rewrite (Permutation_flat_map _ Hperm).
    destruct files as [selected|]; cbn; [|done].
    clear. induction selected as [|file selected IH]; cbn; [done|].
    by apply perm_skip. }
  subst σ'. rewrite (run_loads env roomNumber _ _ Hall). cbn.
  repeat split; try done.
  rewrite length_app, Hloaded. f_equal.
  destruct files as [selected|]; cbn; [apply length_map | done].
Qed.

Lemma upload_appends_in_completion_order_witness :
  let read := λ file : nat,
    lit "data:image/png;base64," ++ [N.of_nat (65 + file)] in
  let σ := run Demo.accepting (lit "101") [FileLoaded Demo.photo] Demo.room_101 in
  let σ' := run Demo.accepting (lit "101")
              [FileLoaded (read 2%nat); FileLoaded (read 0%nat);
               FileLoaded (read 1%nat)] σ in
  Form.images (form σ') = [Demo.photo; read 2%nat; read 0%nat; read 1%nat] ∧
  length (Form.images (form σ')) = 4%nat ∧
  world σ' = world σ.
Proof.
  intros read σ σ'.
  destruct (upload_appends_in_completion_order read Demo.accepting (lit "101")
              (Some [0%nat; 1%nat; 2%nat])
              [FileLoaded (read 2%nat); FileLoaded (read 0%nat);
               FileLoaded (read 1%nat)] σ)
    as (Himages & _ & Hlength & _ & _ & _ & Hworld).
  - cbv [handleImageUpload map].
    etransitivity; [apply perm_swap | apply perm_skip, perm_swap].
  - split; [exact Himages|]. split; [exact Hlength | exact Hworld].
Defined.

(** X7: photos are dropped only by a commit: over any run that saves
    nothing, rejected submissions included, the photo list is the old list
    followed by everything that was loaded, in order. *)
Theorem photos_are_dropped_only_by_a_commit
    (env : Env) (roomNumber : jsstring) (evs : list Event) (σ : Sys) :
  sink (world (run env roomNumber evs σ)) = sink (world σ) →
  Form.images (form (run env roomNumber evs σ)) =
    Form.images (form σ) ++ loaded evs.
Proof. apply run_images. Qed.

Lemma photos_are_dropped_only_by_a_commit_witness :
  Form.images (form (run Demo.accepting (lit "G1")
                       [FileLoaded Demo.photo; Submit;
                        NotesChange (lit "Seife fehlt");
                        FileLoaded (lit "data:image/jpeg;base64,/9j/4A==");
                        Submit] Demo.room_G1)) =
  [Demo.photo; lit "data:image/jpeg;base64,/9j/4A=="].
Proof.
  apply (photos_are_dropped_only_by_a_commit Demo.accepting (lit "G1")
           [FileLoaded Demo.photo; Submit; NotesChange (lit "Seife fehlt");
            FileLoaded (lit "data:image/jpeg;base64,/9j/4A=="); Submit]
           Demo.room_G1).
  reflexivity.
Defined.

Section Identity.
Context (env : Env) (roomNumber : jsstring).

(** No handler writes [roomNumber], [staffName] or [time] of the draft, and
    a saved record carries the first two as the draft has them. *)
Lemma run_identity (evs : list Event) (σ : Sys) :
  let d := Form.formData (form σ) in
  let σ' := run env roomNumber evs σ in
  Task.roomNumber (Form.formData (form σ')) = Task.roomNumber d ∧
  Task.staffName (Form.formData (form σ')) = Task.staffName d ∧
  Task.time (Form.formData (form σ')) = Task.time d ∧
  Forall (λ r, Task.roomNumber r = Task.roomNumber d ∧
               Task.staffName r = Task.staffName d)
    (saved_since (world σ) (world σ')).
Proof.
  intros d σ'. subst σ'.
  pose (I := λ τ : Sys,
    Task.roomNumber (Form.formData (form τ)) = Task.roomNumber d ∧
    Task.staffName (Form.formData (form τ)) = Task.staffName d ∧
    Task.time (Form.formData (form τ)) = Task.time d ∧
    ∃ new, sink (world τ) = sink (world σ) ++ new ∧
           Forall (λ r, Task.roomNumber r = Task.roomNumber d ∧
                        Task.staffName r = Task.staffName d) new).
  assert (HI : I (run env roomNumber evs σ)).
  { apply (run_invariant env roomNumber (λ _, True) I); [|by apply Forall_true|].
    - clear evs. intros ev τ _ (Hr & Hs & Ht & new & Hnew & Hall). unfold I.
      destruct ev; try (by repeat split; eauto).
      submit_cases env roomNumber τ; (repeat split; [done..|]).
      + exists (new ++ [Task.with_time
                          (toLocaleTimeString env (clock env (S (reads (world τ)))))
                          (Form.formData (form τ))]).
        rewrite Hnew, <- app_assoc. split; [done|].
        apply Forall_app. split; [done|]. by repeat constructor.
      + exists (new ++ [Task.with_time
                          (toLocaleTimeString env (clock env (reads (world τ))))
                          (Form.formData (form τ))]).
        rewrite Hnew, <- app_assoc. split; [done|].
        apply Forall_app. split; [done|]. by repeat constructor.
      + eauto.
    - repeat split. exists []. by rewrite app_nil_r. }
  destruct HI as (Hr & Hs & Ht & new & Hnew & Hall).
  repeat split; try done.
  unfold saved_since. by rewrite Hnew, since_app.
Qed.

(** Every mail names the [roomNumber] prop. *)
Lemma run_sent_room (evs : list Event) (σ : Sys) :
  Forall (λ call, Email.v_room_number (Email.vars call) = roomNumber)
    (sent_since (world σ) (world (run env roomNumber evs σ))).
Proof.
  pose (I := λ τ : Sys,
    ∃ new, outbox (world τ) = outbox (world σ) ++ new ∧
           Forall (λ call, Email.v_room_number (Email.vars call) = roomNumber) new).
  assert (HI : I (run env roomNumber evs σ)).
  { apply (run_invariant env roomNumber (λ _, True) I); [|by apply Forall_true|].
    - clear evs. intros ev τ _ (new & Hnew & Hall). unfold I.
      destruct (step_sent env roomNumber ev τ) as [->|(_ & _ & _ & ->)]; [eauto|].
      eexists (new ++ [_]). rewrite Hnew, <- app_assoc. split; [done|].
      apply Forall_app. split; [done|]. by repeat constructor.
    - exists []. by rewrite app_nil_r. }
  destruct HI as (new & Hnew & Hall).
  unfold sent_since. by rewrite Hnew, since_app.
Qed.

Lemma step_completed (ev : Event) (σ : Sys) :
  sink (world (step env roomNumber ev σ)) = sink (world σ) →
  Form.completedToday (form (step env roomNumber ev σ)) =
    Form.completedToday (form σ).
Proof.
  destruct ev; try done.
  submit_cases env roomNumber σ; try done;
    intros H; apply (f_equal length) in H; rewrite length_app in H;
    cbn in H; lia.
Qed.

(** [completedToday] after a run: what it was, or true if anything was
    saved. *)
Lemma run_completed (evs : list Event) (σ : Sys) :
  Form.completedToday (form (run env roomNumber evs σ)) =
    Form.completedToday (form σ) ||
    bool_decide (0 < length (saved_since (world σ)
                               (world (run env roomNumber evs σ))))%nat.
Proof.
  revert σ. induction evs as [|ev evs IH]; intros σ.
  - cbn. unfold saved_since. rewrite drop_all. cbn. by rewrite orb_false_r.
  - rewrite run_cons, IH.
    destruct (run_growth env roomNumber evs (step env roomNumber ev σ))
      as (r2 & _ & _ & Hr2 & _).
    unfold saved_since. rewrite Hr2, since_app.
    destruct (step_sink env roomNumber ev σ) as [Hsame|(-> & Hsel & t & Hgrow)].
    + rewrite (step_completed _ _ Hsame), Hsame. by rewrite since_app.
    + rewrite Hgrow, <- app_assoc, since_app.
      destruct (committed env roomNumber σ Hsel) as (k & w' & Hrun & _).
      unfold step at 1. rewrite Hrun. cbn.
      by rewrite orb_true_r.
Qed.

End Identity.

(** X8: no handler ever sets [staffName] or the draft's [time]: every record
    a mounted form saves has an empty [staffName], and the draft's time
    stays the time of the first render, whatever the user does. *)
Theorem staffName_is_never_set
    (env : Env) (roomNumber : jsstring) (initialCompletedToday : bool)
    (w : World) (evs : list Event) :
  let σ := run env roomNumber evs (mount env roomNumber initialCompletedToday w) in
  Task.staffName (Form.formData (form σ)) = [] ∧
  Task.time (Form.formData (form σ)) =
    toLocaleTimeString env (clock env (S (reads w))) ∧
  Forall (λ record, Task.staffName record = []) (saved_since w (world σ)).
Proof.
  intros σ.
  destruct (run_identity env roomNumber evs
              (mount env roomNumber initialCompletedToday w))
    as (_ & Hs & Ht & Hall).
  split; [exact Hs|]. split; [exact Ht|].
  eapply Forall_impl; [exact Hall|]. by intros r [_ ?].
Qed.

(** X9: a mounted form whose [roomNumber] prop stays the same names one room
    everywhere: every saved record and every mail carries the prop. *)
Theorem records_and_mails_name_the_room
    (env : Env) (roomNumber : jsstring) (initialCompletedToday : bool)
    (w : World) (evs : list Event) :
  let σ := run env roomNumber evs (mount env roomNumber initialCompletedToday w) in
  Forall (λ record, Task.roomNumber record = roomNumber)
    (saved_since w (world σ)) ∧
  Forall (λ call, Email.v_room_number (Email.vars call) = roomNumber)
    (sent_since w (world σ)).
Proof.
  intros σ. split.
  - destruct (run_identity env roomNumber evs
                (mount env roomNumber initialCompletedToday w))
      as (_ & _ & _ & Hall).
    eapply Forall_impl; [exact Hall|]. by intros r [? _].
  - apply (run_sent_room env roomNumber evs
             (mount env roomNumber initialCompletedToday w)).
Qed.



(** X11: validation reads all five flags but agrees with the checkboxes on
    screen.  A mounted form that receives only events of rendered controls
    shows two checkboxes in a special room and five otherwise, and a
    submission is accepted exactly when one of the visible ones is
    ticked. *)
Theorem validation_agrees_with_visible_checkboxes
    (env : Env) (roomNumber : jsstring) (initialCompletedToday : bool)
    (w : World) (evs : list Event) :
  forallb (rendered roomNumber) evs = true →
  let σ := run env roomNumber evs (mount env roomNumber initialCompletedToday w) in
  let boxes := checklist roomNumber (Form.formData (form σ)) in
  let σ' := step env roomNumber Submit σ in
  length boxes = match isSpecialRoom roomNumber with Some _ => 2 | None => 5 end%nat ∧
  hasSelectedCleaning (Form.formData (form σ)) = existsb snd boxes ∧
  (existsb snd boxes = false →
   sink (world σ') = sink (world σ) ∧ Form.error (form σ') = rejection_message) ∧
  (existsb snd boxes = true →
   ∃ record, sink (world σ') = sink (world σ) ++ [record]).
Proof.
  intros Hevs σ boxes σ'.
  assert (Hlen : length boxes = match isSpecialRoom roomNumber with Some _ => 2 | None => 5 end%nat).
  { subst boxes. unfold checklist. by destruct (isSpecialRoom roomNumber). }
  assert (Hsame : hasSelectedCleaning (Form.formData (form σ)) = existsb snd boxes).
  { subst boxes. unfold σ, checklist, hasSelectedCleaning.
    destruct (isSpecialRoom roomNumber) as [m|] eqn:Hspecial; cbn.
    - destruct (special_room_lower_flags env roomNumber evs
                  (mount env roomNumber initialCompletedToday w))
        as (-> & -> & ->); [by rewrite Hspecial | done | done |].
      by rewrite !orb_false_r.
    - by rewrite !orb_false_r, !orb_assoc. }
  split; [exact Hlen|]. split; [exact Hsame|]. rewrite <- Hsame. split.
  - intros Hnone. subst σ'.
    by rewrite step_Submit, (handleSubmit_rejected _ _ _ _ _ Hnone).
  - intros Hsome.
    destruct (committed env roomNumber σ Hsome) as (k & w' & Hrun & _ & _ & Hsink).
    subst σ'. unfold step. rewrite Hrun. cbn. eauto.
Qed.

Lemma validation_agrees_with_visible_checkboxes_witness :
  let σ := run Demo.accepting (lit "G1")
             [MaintenanceCleaningChange true; NotesChange (lit "Seife fehlt")]
             Demo.room_G1 in
  let boxes := checklist (lit "G1") (Form.formData (form σ)) in
  let σ' := step Demo.accepting (lit "G1") Submit σ in
  boxes = [(lit "Sichtreinigung", false); (lit "Unterhaltsreinigung", true)] ∧
  hasSelectedCleaning (Form.formData (form σ)) = existsb snd boxes ∧
  ∃ record, sink (world σ') = sink (world σ) ++ [record].
Proof.
  intros σ boxes σ'.
  destruct (validation_agrees_with_visible_checkboxes Demo.accepting (lit "G1")
              false Demo.empty_world
              [MaintenanceCleaningChange true; NotesChange (lit "Seife fehlt")])
    as (_ & Hsame & _ & Hsome); [reflexivity|].
  split; [reflexivity|]. split; [exact Hsame|]. apply Hsome. reflexivity.
Defined.

(** X12: for a form mounted with the prop [initialCompletedToday] and
    rendered with the prop's current value [currentCompletedToday],
    [completedToday] is true exactly when the room was complete at mount or
    a record has been saved since; the render is highlighted when that
    holds or the current prop is true, and the button reads "Speichern"
    only when both props are false and nothing has been saved yet.  While
    the prop keeps its mount value the [||] of the render adds nothing. *)
Theorem highlight_iff_complete_at_mount_or_saved
    (env : Env) (roomNumber : jsstring)
    (initialCompletedToday currentCompletedToday : bool)
    (w : World) (evs : list Event) :
  let σ := run env roomNumber evs (mount env roomNumber initialCompletedToday w) in
  let saved := saved_since w (world σ) in
  Form.completedToday (form σ) =
    initialCompletedToday || bool_decide (0 < length saved)%nat ∧
  highlighted currentCompletedToday (form σ) =
    initialCompletedToday || bool_decide (0 < length saved)%nat ||
    currentCompletedToday ∧
  (submitLabel currentCompletedToday (form σ) = lit "Speichern" ↔
   initialCompletedToday = false ∧ currentCompletedToday = false ∧ saved = []) ∧
  (currentCompletedToday = initialCompletedToday →
   highlighted currentCompletedToday (form σ) = Form.completedToday (form σ)).
Proof.
  intros σ saved.
  assert (Hc : Form.completedToday (form σ) =
               initialCompletedToday || bool_decide (0 < length saved)%nat).
  { subst σ saved.
    by rewrite (run_completed env roomNumber evs
                  (mount env roomNumber initialCompletedToday w)). }
  split; [exact Hc|]. unfold submitLabel, highlighted. rewrite Hc.
  split; [done|]. split.
  - destruct initialCompletedToday, currentCompletedToday, saved as [|r saved'];
      cbn; rewrite ?bool_decide_eq_false_2 by (cbn; lia);
      rewrite ?bool_decide_eq_true_2 by (cbn; lia); cbn;
      (split; [try discriminate; done | by intros (? & ? & ?)]).
  - intros ->. by destruct initialCompletedToday, (bool_decide _).
Qed.

Lemma highlight_iff_complete_at_mount_or_saved_witness :
  let σ := run Demo.accepting (lit "101") [NotesChange (lit "Lampe defekt")]
             (mount Demo.accepting (lit "101") false Demo.empty_world) in
  Form.completedToday (form σ) = false ∧
  highlighted true (form σ) = true ∧
  submitLabel true (form σ) = lit "Erneut reinigen" ∧
  highlighted false (form σ) = Form.completedToday (form σ).
Proof.
  intros σ.
  destruct (highlight_iff_complete_at_mount_or_saved Demo.accepting (lit "101")
              false false Demo.empty_world [NotesChange (lit "Lampe defekt")])
    as (Hc & _ & _ & Hsame).
  split; [exact Hc|]. split; [reflexivity|]. split; [reflexivity|].
  by apply Hsame.
Defined.

(** X13: notes and photos alone are never saved and never sent.  While no
    checkbox event arrives on a draft with nothing ticked, every submission
    is rejected: the world stays exactly as it was, and the notes and
    photos stay in the form. *)
Theorem attachments_alone_are_never_saved_or_sent
    (env : Env) (roomNumber : jsstring) (evs : list Event) (σ : Sys) :
  hasSelectedCleaning (Form.formData (form σ)) = false →
  Forall (λ ev, is_checkbox ev = false) evs →
  let σ' := run env roomNumber evs σ in
  world σ' = world σ ∧
  Form.completedToday (form σ') = Form.completedToday (form σ) ∧
  Form.images (form σ') = Form.images (form σ) ++ loaded evs ∧
  hasSelectedCleaning (Form.formData (form σ')) = false.
Proof.
  intros Hnone Hevs σ'. subst σ'.
  pose (I := λ τ : Sys,
    world τ = world σ ∧
    Form.completedToday (form τ) = Form.completedToday (form σ) ∧
    hasSelectedCleaning (Form.formData (form τ)) = false).
  assert (HI : I (run env roomNumber evs σ)).
  { apply (run_invariant env roomNumber (λ ev, is_checkbox ev = false) I);
      [|exact Hevs|done].
    clear. intros ev τ Hev (Hw & Hc & Hn). unfold I.
    destruct ev; try discriminate Hev; try done.
    by rewrite step_Submit, (handleSubmit_rejected _ _ _ _ _ Hn). }
  destruct HI as (Hw & Hc & Hn). repeat split; try done.
  apply run_images. by rewrite Hw.
Qed.

Lemma attachments_alone_are_never_saved_or_sent_witness :
  let σ' := run Demo.rejecting (lit "101")
              [NotesChange (lit "Lampe defekt"); FileLoaded Demo.photo; Submit;
               DateChange (lit "2026-11-03"); Submit] Demo.room_101 in
  world σ' = world Demo.room_101 ∧
  Form.completedToday (form σ') = false ∧
  Form.images (form σ') = [Demo.photo] ∧
  hasSelectedCleaning (Form.formData (form σ')) = false.
Proof.
  apply (attachments_alone_are_never_saved_or_sent Demo.rejecting (lit "101")
           [NotesChange (lit "Lampe defekt"); FileLoaded Demo.photo; Submit;
            DateChange (lit "2026-11-03"); Submit] Demo.room_101).
  - reflexivity.
  - repeat constructor.
Defined.

Section TrimShape.

Lemma trimStart_split (s : jsstring) :
  ∃ pre, s = pre ++ trimStart s ∧ blank pre.
Proof.
  induction s as [|c s (pre & Hs & Hpre)]; cbn.
  - exists []. split; [done | constructor].
  - destruct (is_white_space c) eqn:Hc.
    + exists (c :: pre). cbn. split; [by f_equal | by constructor].
    + exists []. split; [done | constructor].
Qed.

Lemma trimEnd_split (s : jsstring) :
  ∃ post, s = trimEnd s ++ post ∧ blank post.
Proof.
  unfold trimEnd. destruct (trimStart_split (reverse s)) as (pre & Hs & Hpre).
  exists (reverse pre). split.
  - rewrite <- reverse_app, <- Hs. by rewrite reverse_involutive.
  - by apply Forall_reverse.
Qed.

Lemma trimStart_fixed (s : jsstring) :
  (∀ c t, s = c :: t → is_white_space c = false) → trimStart s = s.
Proof.
  destruct s as [|c t]; [done|]. intros H. cbn. by rewrite (H c t).
Qed.

End TrimShape.

(** X14: [trim], the test behind the notification guard, removes white space
    at the two ends and nothing else: the string is a blank prefix, the
    trimmed text and a blank suffix; the trimmed text neither starts nor
    ends with white space; trimming twice changes nothing more. *)
Theorem trim_strips_only_the_ends (s : jsstring) :
  (∃ pre post, s = pre ++ trim s ++ post ∧ blank pre ∧ blank post) ∧
  (∀ c t, trim s = c :: t → is_white_space c = false) ∧
  (∀ t c, trim s = t ++ [c] → is_white_space c = false) ∧
  trim (trim s) = trim s.
Proof.
  assert (Hhead : ∀ c t, trim s = c :: t → is_white_space c = false).
  { intros c t H. unfold trim in H.
    destruct (trimEnd_split (trimStart s)) as (post & Hs & _).
    rewrite H in Hs. by apply trimStart_head in Hs. }
  assert (Hlast : ∀ t c, trim s = t ++ [c] → is_white_space c = false).
  { intros t c H. unfold trim, trimEnd in H.
    apply (f_equal reverse) in H.
    rewrite reverse_involutive, reverse_app in H. cbn in H.
    by apply trimStart_head in H. }
  split; [|split; [exact Hhead|split; [exact Hlast|]]].
  - destruct (trimStart_split s) as (pre & Hs & Hpre).
    destruct (trimEnd_split (trimStart s)) as (post & Ht & Hpost).
    exists pre, post. unfold trim. by rewrite <- Ht.
  - unfold trim at 1. rewrite (trimStart_fixed _ Hhead).
    unfold trimEnd. rewrite trimStart_fixed; [by rewrite reverse_involutive|].
    intros c t H. apply (f_equal reverse) in H.
    rewrite reverse_involutive, reverse_cons in H. by apply Hlast in H.
Qed.

(** X15: the first render stores as [date] the part of the ISO timestamp
    before its [T], and a freshly mounted form cannot be saved: submitting
    it at once is rejected and leaves sink and outbox as they were. *)
Theorem fresh_form_has_iso_date_and_rejects_submit
    (env : Env) (roomNumber : jsstring) (initialCompletedToday : bool)
    (w : World) (day rest : jsstring) :
  toISOString env (clock env (reads w)) = day ++ lit "T" ++ rest →
  N_of_ascii "T" ∉ day →
  let σ := mount env roomNumber initialCompletedToday w in
  let σ' := step env roomNumber Submit σ in
  Task.date (Form.formData (form σ)) = day ∧
  Form.completedToday (form σ) = initialCompletedToday ∧
  Form.error (form σ') = rejection_message ∧
  sink (world σ') = sink w ∧
  outbox (world σ') = outbox w.
Proof.
  intros Hiso Hday σ σ'. split; [|by repeat split].
  subst σ. cbn. rewrite Hiso. clear Hiso.
  induction day as [|c day IH]; cbn.
  - by rewrite bool_decide_eq_true_2.
  - apply not_elem_of_cons in Hday as [Hc Hday].
    rewrite bool_decide_eq_false_2 by done. f_equal. by apply IH.
Qed.

Lemma fresh_form_has_iso_date_and_rejects_submit_witness :
  let σ := mount Demo.accepting (lit "318G1") true Demo.empty_world in
  let σ' := step Demo.accepting (lit "318G1") Submit σ in
  Task.date (Form.formData (form σ)) = lit "2026-11-02" ∧
  Form.completedToday (form σ) = true ∧
  Form.error (form σ') = rejection_message ∧
  sink (world σ') = [] ∧
  outbox (world σ') = [].
Proof.
  apply (fresh_form_has_iso_date_and_rejects_submit Demo.accepting (lit "318G1")
           true Demo.empty_world (lit "2026-11-02") (lit "08:00:00.000Z")).
  - vm_compute. reflexivity.
  - vm_compute. intros H. repeat (inversion H as [|? ? ? H']; clear H; rename H' into H).
Defined.

(** X16: the heading of a room is never blank unless the room number is, it
    is the room number itself or one of the four labels of the table, and
    labelling a label gives it back. *)
Theorem getRoomLabel_range (number : jsstring) :
  (getRoomLabel number = number ∨
   getRoomLabel number ∈
     [lit "G" ++ [a_umlaut] ++ lit "ste WC"; lit "Mitarbeiter WC";
      lit "Behinderten WC"; lit "Pflegebad"]) ∧
  (getRoomLabel number = [] ↔ number = []) ∧
  getRoomLabel (getRoomLabel number) = getRoomLabel number.
Proof.
  assert (Hlabel : getRoomLabel number = fst (classify number)) by reflexivity.
  rewrite classify_by_lookup, specialRooms_lookup in Hlabel.
  repeat case_decide; cbv [fst] in Hlabel; rewrite Hlabel.
  1-4: split; [right; rewrite !elem_of_cons; auto 6|];
       split; [|vm_compute; reflexivity];
       split; [intros Hnil; vm_compute in Hnil; discriminate|];
       intros ->;
       match goal with Hs : slice [] _ = _ |- _ => vm_compute in Hs; discriminate end.
  split; [by left|]. split; [done | exact Hlabel].
Qed.

(** X17: edits of two different controls commute, and of two edits of the
    same control the later one wins; only file reads and submissions are
    sensitive to order. *)
Theorem edits_commute_and_last_edit_wins
    (env : Env) (roomNumber : jsstring) (ev1 ev2 : Event) (σ : Sys) :
  is_Some (control ev1) →
  is_Some (control ev2) →
  (control ev1 ≠ control ev2 →
   run env roomNumber [ev1; ev2] σ = run env roomNumber [ev2; ev1] σ) ∧
  (control ev1 = control ev2 →
   run env roomNumber [ev1; ev2] σ = run env roomNumber [ev2] σ).
Proof.
  intros [c1 H1] [c2 H2].
  destruct ev1; try discriminate H1; destruct ev2; try discriminate H2;
    (split; intros H; [try (by destruct H) | try discriminate H]);
    reflexivity.
Qed.

Lemma edits_commute_and_last_edit_wins_witness :
  run Demo.accepting (lit "101")
    [NotesChange (lit "Lampe defekt"); BedCleaningChange true] Demo.room_101 =
  run Demo.accepting (lit "101")
    [BedCleaningChange true; NotesChange (lit "Lampe defekt")] Demo.room_101 ∧
  run Demo.accepting (lit "101")
    [BedCleaningChange true; BedCleaningChange false] Demo.room_101 =
  run Demo.accepting (lit "101") [BedCleaningChange false] Demo.room_101.
Proof.
  split.
  - apply (edits_commute_and_last_edit_wins Demo.accepting (lit "101")
             (NotesChange (lit "Lampe defekt")) (BedCleaningChange true)
             Demo.room_101); [by eexists | by eexists | discriminate].
  - apply (edits_commute_and_last_edit_wins Demo.accepting (lit "101")
             (BedCleaningChange true) (BedCleaningChange false)
             Demo.room_101); [by eexists | by eexists | reflexivity].
Defined.

Section Console.
Context (env : Env) (roomNumber : jsstring).




End Console.



Lemma trim_strips_only_the_ends_witness :
  trim (lit "  Lampe defekt ") = lit "Lampe defekt" ∧
  is_white_space (N_of_ascii "L") = false ∧
  is_white_space (N_of_ascii "t") = false.
Proof.
  destruct (trim_strips_only_the_ends (lit "  Lampe defekt "))
    as (_ & Hhead & Hlast & _).
  split; [reflexivity|]. split.
  - apply (Hhead _ (lit "ampe defekt")). reflexivity.
  - apply (Hlast (lit "Lampe defek")). reflexivity.
Defined.

(** ** Submissions in flight *)

Section Interleaved.
Context (env : Env) (roomNumber : jsstring).

(** Unfolds one interleaved step down to records. *)
Ltac run_async :=
  cbv beta iota zeta delta
      [handleSubmit_begin handleSubmit_resume handleSubmit_finish];
  run_handler;
  cbn [sys inflight snd fst form world reads outbox console sink
       pending_formData pending_index pending_call
       Form.completedToday Form.error Form.images Form.formData].

Lemma arun_cons (ev : AEvent) (evs : list AEvent) (a : Async) :
  arun env roomNumber (ev :: evs) a =
    arun env roomNumber evs (astep env roomNumber ev a).
Proof. reflexivity. Qed.

(** The three ways a [Submit] event is taken up. *)
Lemma begin_cases (a : Async) :
  let σ := sys a in
  let d := Form.formData (form σ) in
  let a' := astep env roomNumber (User Submit) a in
  (hasSelectedCleaning d = false ∧
   a' = mkAsync (step env roomNumber Submit σ) (inflight a)) ∨
  (hasSelectedCleaning d = true ∧
   notification_due d (Form.images (form σ)) = false ∧
   a' = mkAsync (step env roomNumber Submit σ) (inflight a)) ∨
  (hasSelectedCleaning d = true ∧
   notification_due d (Form.images (form σ)) = true ∧
   let call := notification_call env roomNumber (Task.notes d)
                 (Form.images (form σ)) (clock env (reads (world σ))) in
   a' = mkAsync
          (mkSys (Form.mk (Form.completedToday (form σ)) []
                          (Form.images (form σ)) d)
                 (mkWorld (S (reads (world σ))) (outbox (world σ) ++ [call])
                          (console (world σ)) (sink (world σ))))
          (inflight a ++ [mkPending d (length (outbox (world σ))) call])).
Proof.
  intros σ d a'. subst a'. cbn [astep]. fold σ. fold d.
  unfold handleSubmit_begin. fold σ.
  destruct (hasSelectedCleaning d) eqn:Hsel; cbn [negb].
  - destruct (notification_due d (Form.images (form σ))) eqn:Hdue;
      pose proof Hdue as Hdue'; unfold notification_due in Hdue';
      rewrite Hdue'.
    + right; right. repeat split. 
    + right; left. repeat split. f_equal.
      rewrite step_Submit. subst d.
      by rewrite (handleSubmit_silent env roomNumber _ _ σ Hsel Hdue).
  - left. split; [done|]. f_equal.
    rewrite step_Submit. subst d.
    by rewrite (handleSubmit_rejected env roomNumber _ _ σ Hsel).
Qed.

(** A submission whose send settles before anything else happens is the
    submission of [step]. *)
Lemma begin_then_settle (a : Async) :
  inflight a = [] →
  arun env roomNumber [User Submit; Settled 0] a =
    mkAsync (step env roomNumber Submit (sys a)) [].
Proof.
  intros Hnone. rewrite !arun_cons. cbn [arun foldl].
  destruct (begin_cases a) as [(Hsel & ->)|[(Hsel & Hdue & ->)|(Hsel & Hdue & ->)]];
    rewrite Hnone.
  - reflexivity.
  - reflexivity.
  - cbn [astep app sys inflight lookup list_lookup delete list_delete].
    f_equal. rewrite step_Submit.
    rewrite (handleSubmit_notifying env roomNumber _ _ (sys a) Hsel Hdue).
    unfold notification_call. run_async.
    destruct (emailjs_send env _ _); run_async; cbn [snd failure_log];
      by rewrite ?app_nil_r.
Qed.

(** What a resumed submission does to the state it finds. *)
Lemma resume_spec (p : Pending) (σ : Sys) :
  handleSubmit_resume env p σ =
    mkSys (Form.mk true (Form.error (form σ)) []
                   (reset_draft (Form.formData (form σ))))
          (mkWorld (S (reads (world σ))) (outbox (world σ))
             (console (world σ) ++
              failure_log (emailjs_send env (pending_index p) (pending_call p)))
             (sink (world σ) ++
              [Task.with_time
                 (toLocaleTimeString env (clock env (reads (world σ))))
                 (pending_formData p)])).
Proof.
  unfold handleSubmit_resume, handleSubmit_finish.
  destruct (emailjs_send env _ _); run_handler; cbn [snd failure_log];
    by rewrite ?app_nil_r.
Qed.

(** What one interleaved step adds to the logs and how it changes the
    number of suspended submissions. *)
Lemma astep_growth (ev : AEvent) (a : Async) :
  let a' := astep env roomNumber ev a in
  ∃ recs mails logs,
    sink (world (sys a')) = sink (world (sys a)) ++ recs ∧
    outbox (world (sys a')) = outbox (world (sys a)) ++ mails ∧
    console (world (sys a')) = console (world (sys a)) ++ logs ∧
    (length logs ≤ length recs)%nat ∧
    (length mails + length (inflight a) ≤
     length recs + length (inflight a'))%nat ∧
    (length recs + length (inflight a') ≤
     (if is_user_Submit ev then 1 else 0) + length (inflight a))%nat.
Proof.
  intros a'. subst a'.
  destruct ev as [ev|i].
  - destruct (decide (is_user_Submit (User ev) = true)) as [Hs|Hs].
    + destruct ev; try discriminate Hs. clear Hs.
      destruct (begin_cases a)
        as [(Hsel & ->)|[(Hsel & Hdue & ->)|(Hsel & Hdue & ->)]];
        cbn [sys inflight is_user_Submit].
      * rewrite step_Submit, (handleSubmit_rejected env roomNumber _ _ _ Hsel).
        exists [], [], []. cbn. rewrite !app_nil_r.
        repeat split; try done; lia.
      * rewrite step_Submit, (handleSubmit_silent env roomNumber _ _ _ Hsel Hdue).
        eexists [_], [], []. cbn. rewrite !app_nil_r.
        repeat split; try done; lia.
      * eexists [], [_], []. cbn. rewrite !app_nil_r, length_app. cbn.
        repeat split; try done; lia.
    + assert (Hev : ev ≠ Submit) by (by intros ->).
      assert (astep env roomNumber (User ev) a =
              mkAsync (step env roomNumber ev (sys a)) (inflight a)) as ->
        by (by destruct ev).
      cbn [sys inflight].
      destruct (step_edit env roomNumber ev (sys a) Hev) as [-> _].
      exists [], [], []. rewrite !app_nil_r.
      replace (is_user_Submit (User ev)) with false by (by destruct ev).
      repeat split; try done; cbn; lia.
  - cbn [astep is_user_Submit].
    destruct (inflight a !! i) as [p|] eqn:Hp.
    + cbn [sys inflight].
      assert (Hlen : (S (length (delete i (inflight a))) = length (inflight a))%nat).
      { rewrite length_delete by eauto.
        apply lookup_lt_Some in Hp. lia. }
      run_async.
      destruct (emailjs_send env _ _); run_async.
      * eexists [_], [], [_]. rewrite !app_nil_r. cbn.
        repeat split; try done; lia.
      * eexists [_], [], []. rewrite !app_nil_r. cbn.
        repeat split; try done; lia.
    + exists [], [], []. rewrite !app_nil_r. repeat split; try done; cbn; lia.
Qed.

Lemma arun_growth (evs : list AEvent) (a : Async) :
  let a' := arun env roomNumber evs a in
  ∃ recs mails logs,
    sink (world (sys a')) = sink (world (sys a)) ++ recs ∧
    outbox (world (sys a')) = outbox (world (sys a)) ++ mails ∧
    console (world (sys a')) = console (world (sys a)) ++ logs ∧
    (length logs ≤ length recs)%nat ∧
    (length mails + length (inflight a) ≤
     length recs + length (inflight a'))%nat ∧
    (length recs + length (inflight a') ≤
     length (filter is_user_Submit evs) + length (inflight a))%nat.
Proof.
  revert a. induction evs as [|ev evs IH]; intros a; cbv zeta.
  - exists [], [], []. rewrite !app_nil_r. repeat split; try done; cbn; lia.
  - rewrite arun_cons.
    destruct (astep_growth ev a) as (r1 & m1 & l1 & Hr1 & Hm1 & Hl1 & ? & ? & ?).
    destruct (IH (astep env roomNumber ev a))
      as (r2 & m2 & l2 & Hr2 & Hm2 & Hl2 & ? & ? & ?).
    exists (r1 ++ r2), (m1 ++ m2), (l1 ++ l2).
    rewrite Hr2, Hm2, Hl2, Hr1, Hm1, Hl1, <- !app_assoc, !length_app.
    repeat split; try done; try lia.
    rewrite filter_cons. destruct (is_user_Submit ev); cbn; case_decide; cbn; try lia; done.
Qed.

(** An interleaved run in which nothing is attached and nothing is in
    flight, on a form without notes and photos, sends nothing. *)
Lemma arun_quiet (evs : list AEvent) (a : Async) :
  Forall (λ ev, a_attaches ev = false) evs →
  inflight a = [] →
  Task.notes (Form.formData (form (sys a))) = [] →
  Form.images (form (sys a)) = [] →
  outbox (world (sys (arun env roomNumber evs a))) = outbox (world (sys a)) ∧
  inflight (arun env roomNumber evs a) = [].
Proof.
  revert a. induction evs as [|ev evs IH]; intros a Hall Hfl Hn Hi; [done|].
  inversion Hall as [|? ? Hev Hrest]; subst. rewrite arun_cons.
  assert (Hstep :
    outbox (world (sys (astep env roomNumber ev a))) = outbox (world (sys a)) ∧
    inflight (astep env roomNumber ev a) = [] ∧
    Task.notes (Form.formData (form (sys (astep env roomNumber ev a)))) = [] ∧
    Form.images (form (sys (astep env roomNumber ev a))) = []).
  { destruct ev as [ev|i].
    - destruct ev; try discriminate Hev; try (by repeat split).
      assert (Hquiet : notification_due (Form.formData (form (sys a)))
                         (Form.images (form (sys a))) = false).
      { unfold notification_due. by rewrite Hn, Hi. }
      destruct (begin_cases a)
        as [(Hsel & ->)|[(Hsel & Hdue & ->)|(Hsel & Hdue & _)]];
        [| |congruence]; cbn [sys inflight]; rewrite step_Submit.
      + by rewrite (handleSubmit_rejected env roomNumber _ _ _ Hsel).
      + by rewrite (handleSubmit_silent env roomNumber _ _ _ Hsel Hdue).
    - cbn [astep]. by rewrite Hfl. }
  destruct Hstep as (Ho & Hfl' & Hn' & Hi').
  destruct (IH _ Hrest Hfl' Hn' Hi') as [Ho2 Hfl2].
  split; [by rewrite Ho2 | done].
Qed.

End Interleaved.

(** X1: the sink, the outbox and the console only grow, also while
    submissions are suspended at their send.  Over any interleaved run
    there are at most as many new console lines as new records, every new
    mail is matched by a new record or by a submission still in flight, and
    every new record or submission in flight is matched by a submit event
    or by a submission that was in flight at the start. *)
Theorem logs_grow_and_are_ordered
    (env : Env) (roomNumber : jsstring) (evs : list AEvent) (a : Async) :
  let a' := arun env roomNumber evs a in
  let w := world (sys a) in
  let w' := world (sys a') in
  sink w' = sink w ++ saved_since w w' ∧
  outbox w' = outbox w ++ sent_since w w' ∧
  console w' = console w ++ logged_since w w' ∧
  (length (logged_since w w') ≤ length (saved_since w w'))%nat ∧
  (length (sent_since w w') + length (inflight a) ≤
   length (saved_since w w') + length (inflight a'))%nat ∧
  (length (saved_since w w') + length (inflight a') ≤
   length (filter is_user_Submit evs) + length (inflight a))%nat.
Proof.
  intros a' w w'. subst a' w w'.
  destruct (arun_growth env roomNumber evs a)
    as (r & m & l & Hr & Hm & Hl & ? & ? & ?).
  unfold saved_since, sent_since, logged_since.
  rewrite Hr, Hm, Hl, !since_app. by repeat split.
Qed.

(** X4: a submit repeated with no edit in between is rejected once the first
    submission has finished (nothing attached, or its send has settled): it
    changes nothing in the world and shows the rejection message.  While
    the first send is still in flight the draft is not yet reset, and the
    repeated submit is accepted: two mails with the same notes go out and
    the draft is saved twice. *)
Theorem resubmit_is_rejected_once_the_first_has_finished
    (env : Env) (roomNumber : jsstring) (a : Async) :
  inflight a = [] →
  hasSelectedCleaning (Form.formData (form (sys a))) = true →
  let d := Form.formData (form (sys a)) in
  let w := world (sys a) in
  (let a1 := arun env roomNumber [User Submit; Settled 0] a in
   let a2 := astep env roomNumber (User Submit) a1 in
   (∃ record, sink (world (sys a1)) = sink w ++ [record]) ∧
   world (sys a2) = world (sys a1) ∧
   inflight a2 = [] ∧
   Form.error (form (sys a2)) = rejection_message ∧
   Form.completedToday (form (sys a2)) = true) ∧
  (trim (Task.notes d) ≠ [] ∨ Form.images (form (sys a)) ≠ [] →
   let b := arun env roomNumber
              [User Submit; User Submit; Settled 0; Settled 0] a in
   ∃ t1 t2 call1 call2,
     sink (world (sys b)) = sink w ++ [Task.with_time t1 d; Task.with_time t2 d] ∧
     outbox (world (sys b)) = outbox w ++ [call1; call2] ∧
     Email.v_notes (Email.vars call1) = Task.notes d ∧
     Email.v_notes (Email.vars call2) = Task.notes d ∧
     inflight b = []).
Proof.
  intros Hnone Hsel d w. split.
  - intros a1 a2. subst a1 a2. rewrite (begin_then_settle env roomNumber a Hnone).
    destruct (committed env roomNumber (sys a) Hsel)
      as (k & w' & Hrun & _ & _ & Hsink).
    assert (H1 : step env roomNumber Submit (sys a) =
                 mkSys (Form.mk true [] [] (reset_draft (Form.formData (form (sys a)))))
                       w') by (unfold step; by rewrite Hrun).
    rewrite H1. cbn [astep sys inflight].
    split; [cbn; eauto|].
    unfold handleSubmit_begin, hasSelectedCleaning, reset_draft.
    cbn [sys inflight form Form.formData Form.images Task.visualCleaning
         Task.maintenanceCleaning Task.basicRoomCleaning Task.bedCleaning
         Task.windowsCurtainsCleaning orb negb].
    run_handler. repeat split; reflexivity.
  - intros Hdue b. apply notification_due_true in Hdue.
    subst b d w. rewrite !arun_cons. cbn [arun foldl].
    destruct (begin_cases env roomNumber a)
      as [(Hno & _)|[(_ & Hno & _)|(_ & _ & ->)]]; [congruence..|].
    rewrite Hnone. cbn [app].
    match goal with |- context [astep _ _ (User Submit) ?x] => set (a1 := x) end.
    destruct (begin_cases env roomNumber a1)
      as [(Hno & _)|[(_ & Hno & _)|(_ & _ & ->)]];
      [subst a1; cbn in Hno; congruence..|].
    subst a1.
    cbn [astep app sys inflight lookup list_lookup delete list_delete form world
         reads outbox console sink
         Form.completedToday Form.error Form.images Form.formData].
    rewrite !resume_spec.
    cbn [sys inflight form world reads outbox console sink
         pending_formData pending_index pending_call
         Form.completedToday Form.error Form.images Form.formData].
    do 4 eexists. rewrite <- !app_assoc. repeat split.
Qed.

Lemma resubmit_is_rejected_once_the_first_has_finished_witness :
  let a := mkAsync
             (run Demo.accepting (lit "101")
                [VisualCleaningChange true; NotesChange (lit "Lampe defekt")]
                Demo.room_101) [] in
  let a1 := arun Demo.accepting (lit "101") [User Submit; Settled 0] a in
  let a2 := astep Demo.accepting (lit "101") (User Submit) a1 in
  let b := arun Demo.accepting (lit "101")
             [User Submit; User Submit; Settled 0; Settled 0] a in
  length (sink (world (sys a1))) = 1%nat ∧
  world (sys a2) = world (sys a1) ∧
  Form.error (form (sys a2)) = rejection_message ∧
  length (sink (world (sys b))) = 2%nat ∧
  length (outbox (world (sys b))) = 2%nat ∧
  inflight b = [].
Proof.
  intros a a1 a2 b.
  destruct (resubmit_is_rejected_once_the_first_has_finished
              Demo.accepting (lit "101") a)
    as ((_ & Hworld & _ & Herror & _) & _); [reflexivity | reflexivity |].
  split; [reflexivity|]. split; [exact Hworld|]. split; [exact Herror|].
  split; [reflexivity|]. split; reflexivity.
Defined.

(** X5: notes and photos are sent once.  After a submission that has
    finished (nothing was in flight and its send has settled), as long as
    no new note is typed and no new photo is loaded, no further mail is
    sent, whatever is ticked and however often the form is submitted. *)
Theorem attachments_are_sent_once
    (env : Env) (roomNumber : jsstring) (a : Async) (evs : list AEvent) :
  inflight a = [] →
  hasSelectedCleaning (Form.formData (form (sys a))) = true →
  Forall (λ ev, a_attaches ev = false) evs →
  let a1 := arun env roomNumber [User Submit; Settled 0] a in
  outbox (world (sys (arun env roomNumber evs a1))) = outbox (world (sys a1)) ∧
  inflight (arun env roomNumber evs a1) = [].
Proof.
  intros Hnone Hsel Hevs a1. subst a1.
  rewrite (begin_then_settle env roomNumber a Hnone).
  destruct (committed env roomNumber (sys a) Hsel) as (k & w' & Hrun & _).
  unfold step. rewrite Hrun. cbn [snd].
  by apply arun_quiet.
Qed.

Lemma attachments_are_sent_once_witness :
  let a := mkAsync
             (run Demo.accepting (lit "101")
                [VisualCleaningChange true; NotesChange (lit "Lampe defekt");
                 FileLoaded Demo.photo] Demo.room_101) [] in
  let a1 := arun Demo.accepting (lit "101") [User Submit; Settled 0] a in
  let evs := [User (BedCleaningChange true); User Submit; Settled 0;
              User (DateChange (lit "2026-11-03"));
              User (VisualCleaningChange true); User Submit; User Submit] in
  length (outbox (world (sys a1))) = 1%nat ∧
  outbox (world (sys (arun Demo.accepting (lit "101") evs a1))) =
    outbox (world (sys a1)) ∧
  length (sink (world (sys (arun Demo.accepting (lit "101") evs a1)))) = 3%nat.
Proof.
  intros a a1 evs.
  destruct (attachments_are_sent_once Demo.accepting (lit "101") a evs)
    as [Hout _]; [reflexivity | reflexivity | repeat constructor |].
  split; [reflexivity|]. split; [exact Hout | reflexivity].
Defined.

(** While a send is in flight the mail is out and nothing is saved yet; the
    record follows when the send settles. *)
Example mail_out_before_record :
  let a := arun Demo.accepting (lit "101")
             [User (VisualCleaningChange true);
              User (NotesChange (lit "Lampe defekt")); User Submit]
             (mkAsync Demo.room_101 []) in
  length (outbox (world (sys a))) = 1%nat ∧
  sink (world (sys a)) = [] ∧
  length (inflight a) = 1%nat ∧
  Form.completedToday (form (sys a)) = false ∧
  length (sink (world (sys (astep Demo.accepting (lit "101") (Settled 0) a)))) = 1%nat.
Proof. vm_compute. repeat split. Qed.
